(** * agentic-dashboard: the chat hook, the suggestion normaliser and the plot builder

    A shallow embedding of
    - [src/hooks/useChat.ts]            (the chat session state machine),
    - [src/components/DataExplorer.tsx] ([finalGraphSuggestionForViewer]),
    - [src/components/GraphViewer.tsx]  ([plotParams]),
    followed by the properties of the specification that concern them.

    React state setters are modelled by explicit state passing: every handler
    maps the state record before the call to the state record after it.
    [generateId] reads the clock and a random source; the identifiers it
    returns are supplied from outside, as an argument of each handler. *)

From Stdlib Require Import ZArith String Ascii List Lia DecimalString.
From stdpp Require Import base gmap strings list.

Set Warnings "-register-all".
Local Open Scope string_scope.
Local Open Scope list_scope.
Local Arguments String.append !_ _ / : simpl nomatch.

(** ** JavaScript strings

    A string is a sequence of code units below 256 (Rocq's [ascii]). *)
Module JsString.

(** White space and line terminators removed by [String.prototype.trim],
    as far as they fit a code unit below 256: TAB, LF, VT, FF, CR, SPACE and
    NBSP. *)
Definition is_ws (c : ascii) : bool :=
  let n := nat_of_ascii c in
  (n =? 9)%nat || (n =? 10)%nat || (n =? 11)%nat || (n =? 12)%nat
  || (n =? 13)%nat || (n =? 32)%nat || (n =? 160)%nat.

Fixpoint trimStart (s : string) : string :=
  match s with
  | EmptyString => EmptyString
  | String c s' => if is_ws c then trimStart s' else s
  end.

Fixpoint trimEnd (s : string) : string :=
  match s with
  | EmptyString => EmptyString
  | String c s' =>
      match trimEnd s' with
      | EmptyString => if is_ws c then EmptyString else String c EmptyString
      | t => String c t
      end
  end.

(** [s.trim()] *)
Definition trim (s : string) : string := trimEnd (trimStart s).

(** The suffix of [s] from position [n] on (the empty string past the end). *)
Fixpoint drop (n : nat) (s : string) : string :=
  match n, s with
  | O, _ => s
  | S n', String _ s' => drop n' s'
  | S _, EmptyString => EmptyString
  end.

(** Positions are clamped to [0, length] as [substring] and [indexOf] do. *)
Definition clamp (s : string) (i : Z) : nat :=
  Nat.min (Z.to_nat i) (String.length s).

(** [s.substring(start)] *)
Definition substringFrom (s : string) (start : Z) : string :=
  drop (clamp s start) s.

(** [s.substring(start, end)]: both ends clamped, swapped when out of
    order. *)
Definition substring (s : string) (start stop : Z) : string :=
  let a := clamp s start in
  let b := clamp s stop in
  String.substring (Nat.min a b) (Nat.max a b - Nat.min a b) s.

(** First occurrence of [m] in [s], the positions of [s] counted from [i]. *)
Fixpoint indexOf_at (m s : string) (i : nat) : option nat :=
  if String.prefix m s then Some i
  else match s with
       | EmptyString => None
       | String _ s' => indexOf_at m s' (S i)
       end.

(** [s.indexOf(m, from)], [-1] when [m] does not occur. *)
Definition indexOf (s m : string) (from : Z) : Z :=
  let k := clamp s from in
  match indexOf_at m (drop k s) k with
  | Some i => Z.of_nat i
  | None => (-1)%Z
  end.

(** [s.includes(m)] *)
Definition includes (s m : string) : bool :=
  negb (indexOf s m 0 =? -1)%Z.

(** [s.endsWith(m)] *)
Fixpoint endsWith (s m : string) : bool :=
  if String.eqb s m then true
  else match s with
       | EmptyString => false
       | String _ s' => endsWith s' m
       end.

(** [s.replace(/_/g, ' ')] *)
Fixpoint underscoresToSpaces (s : string) : string :=
  match s with
  | EmptyString => EmptyString
  | String c s' =>
      String (if Ascii.eqb c "_"%char then " "%char else c)
             (underscoresToSpaces s')
  end.

(** A non-negative integer inside a template literal. *)
Definition ofNat (n : nat) : string :=
  NilEmpty.string_of_uint (Nat.to_uint n).

(** An optional string inside a template literal: [undefined] prints as the
    word. *)
Definition interpolate (o : option string) : string :=
  match o with
  | Some s => s
  | None => "undefined"
  end.

(** Truthiness of a string: only the empty string is falsy. *)
Definition truthy (s : string) : bool :=
  negb (String.eqb s "").

(** Truthiness of an optional string field. *)
Definition truthyOpt (o : option string) : bool :=
  match o with
  | Some s => truthy s
  | None => false
  end.

(** [o || d] for an optional string [o] and a string [d]. *)
Definition orElse (o : option string) (d : string) : string :=
  match o with
  | Some s => if truthy s then s else d
  | None => d
  end.

(** No occurrence of [m] in [s] starts before position [n]. *)
Definition noneBefore (m s : string) (n : nat) : Prop :=
  forall j, (j < n)%nat -> String.prefix m (drop j s) = false.

(** Every code unit of [s] is white space. *)
Fixpoint all_ws (s : string) : bool :=
  match s with
  | EmptyString => true
  | String c s' => is_ws c && all_ws s'
  end.

End JsString.

(** ** JavaScript values

    The payloads typed [unknown] in the source (table cells, the open fields
    of a graph suggestion). Numbers are the integers: JSON delivers no NaN, so
    zero is the only falsy number. Objects are finite maps from property name
    to value. *)
Inductive JsVal : Type :=
  | JUndefined
  | JNull
  | JBool (b : bool)
  | JNum (z : Z)
  | JStr (s : string)
  | JArr (l : list JsVal)
  | JObj (o : gmap string JsVal).

Module Js.

(** ToBoolean *)
Definition truthy (v : JsVal) : bool :=
  match v with
  | JUndefined | JNull => false
  | JBool b => b
  | JNum z => negb (z =? 0)%Z
  | JStr s => JsString.truthy s
  | JArr _ | JObj _ => true
  end.

(** [o[k]]: a missing property reads as [undefined]. *)
Definition get (o : gmap string JsVal) (k : string) : JsVal :=
  default JUndefined (o !! k).

(** [typeof v === 'string'] *)
Definition isString (v : JsVal) : bool :=
  match v with
  | JStr _ => true
  | _ => false
  end.

(** [Array.isArray(v)] *)
Definition isArray (v : JsVal) : bool :=
  match v with
  | JArr _ => true
  | _ => false
  end.

(** [v === 'lit'] *)
Definition isStr (v : JsVal) (lit : string) : bool :=
  match v with
  | JStr s => String.eqb s lit
  | _ => false
  end.

(** [a || b] *)
Definition or (a b : JsVal) : JsVal :=
  if truthy a then a else b.

End Js.

(** ** Data model of [useChat.ts] *)

(** A row of a result table: [Record<string, unknown>]. *)
Abbreviation Row := (gmap string JsVal).

(** A graph suggestion, on the wire ([BackendGraphSuggestionFormat]) and in
    the hook's state ([GraphSuggestion]): an object with open fields. *)
Abbreviation GraphSuggestion := (gmap string JsVal).

Inductive Role : Type :=
  | user
  | assistant
  | system
  | milestone
  | context_info.

Definition Role_eqb (a b : Role) : bool :=
  match a, b with
  | user, user | assistant, assistant | system, system
  | milestone, milestone | context_info, context_info => true
  | _, _ => false
  end.

Module ReportSection.
Record t : Type := { title : string; content : string }.
End ReportSection.

Module GeneratedQuery.
Record t : Type := { objective : string; query : string }.
End GeneratedQuery.

Module ChatMessage.
Record t : Type := {
  id : string;
  role : Role;
  content : string;
  reasoning : option string;
  reportSections : option (list ReportSection.t);
  generatedQueries : option (list GeneratedQuery.t);
  step : option string
}.

(** [{ ...m, reasoning: r }] *)
Definition withReasoning (m : t) (r : string) : t :=
  {| id := id m; role := role m; content := content m;
     reasoning := Some r;
     reportSections := reportSections m;
     generatedQueries := generatedQueries m;
     step := step m |}.
End ChatMessage.

(** [Partial<ChatMessage>], the [additionalFields] of [addMessageToChat]. *)
Module PartialChatMessage.
Record t : Type := {
  id : option string;
  role : option Role;
  content : option string;
  reasoning : option string;
  reportSections : option (list ReportSection.t);
  generatedQueries : option (list GeneratedQuery.t);
  step : option string
}.

Definition empty : t :=
  {| id := None; role := None; content := None; reasoning := None;
     reportSections := None; generatedQueries := None; step := None |}.
End PartialChatMessage.

Module QueryResult.
Record t : Type := {
  objective : string;
  query : string;
  dataframe : list Row;
  error : option string;
  platform : option string
}.
End QueryResult.

(** An element of [executed_queries]. The fields are declared mandatory in
    the source, which nevertheless guards each of them; they are optional
    here. *)
Module ExecutedQuery.
Record t : Type := {
  platform : option string;
  objective : option string;
  query : option string;
  data : option (list Row)
}.
End ExecutedQuery.

(** The fields of [WebSocketMessage] that the hook reads. *)
Module WebSocketMessage.
Record t : Type := {
  type : string;
  user_id : option string;
  step : option string;
  status : option string;
  details : option string;
  reasoning : option string;
  insight : option string;
  report_sections : option (list ReportSection.t);
  graph_suggestions : option (list GraphSuggestion);
  message : option string;
  generated_queries : option (list GeneratedQuery.t);
  objective : option string;
  query : option string;
  data : option (list Row);
  error : option string;
  content : option string;
  platform : option string;
  executed_queries : option (list ExecutedQuery.t)
}.
End WebSocketMessage.

(** [ReadyState] of react-use-websocket. *)
Inductive ReadyState : Type :=
  | UNINSTANTIATED
  | CONNECTING
  | OPEN
  | CLOSING
  | CLOSED.

(** The six [useState] cells of the hook. *)
Module State.
Record t : Type := {
  userId : option string;
  messages : list ChatMessage.t;
  queryResults : list QueryResult.t;
  currentStatus : option string;
  isProcessing : bool;
  graphSuggestions : list GraphSuggestion
}.

Definition setUserId (v : option string) (s : t) : t :=
  {| userId := v; messages := messages s; queryResults := queryResults s;
     currentStatus := currentStatus s; isProcessing := isProcessing s;
     graphSuggestions := graphSuggestions s |}.

Definition setMessages (f : list ChatMessage.t -> list ChatMessage.t) (s : t) : t :=
  {| userId := userId s; messages := f (messages s);
     queryResults := queryResults s; currentStatus := currentStatus s;
     isProcessing := isProcessing s; graphSuggestions := graphSuggestions s |}.

Definition setQueryResults (f : list QueryResult.t -> list QueryResult.t) (s : t) : t :=
  {| userId := userId s; messages := messages s;
     queryResults := f (queryResults s); currentStatus := currentStatus s;
     isProcessing := isProcessing s; graphSuggestions := graphSuggestions s |}.

Definition setCurrentStatus (v : option string) (s : t) : t :=
  {| userId := userId s; messages := messages s; queryResults := queryResults s;
     currentStatus := v; isProcessing := isProcessing s;
     graphSuggestions := graphSuggestions s |}.

Definition setIsProcessing (v : bool) (s : t) : t :=
  {| userId := userId s; messages := messages s; queryResults := queryResults s;
     currentStatus := currentStatus s; isProcessing := v;
     graphSuggestions := graphSuggestions s |}.

Definition setGraphSuggestions (v : list GraphSuggestion) (s : t) : t :=
  {| userId := userId s; messages := messages s; queryResults := queryResults s;
     currentStatus := currentStatus s; isProcessing := isProcessing s;
     graphSuggestions := v |}.

(** The initial values of the cells. *)
Definition initial : t :=
  {| userId := None;
     messages :=
       [ {| ChatMessage.id := "init_message";
            ChatMessage.role := system;
            ChatMessage.content :=
              "Hello! I am your Insight Assistant. Ask me to analyze your data or suggest optimizations.";
            ChatMessage.reasoning := None;
            ChatMessage.reportSections := None;
            ChatMessage.generatedQueries := None;
            ChatMessage.step := None |} ];
     queryResults := [];
     currentStatus := None;
     isProcessing := false;
     graphSuggestions := [] |}.
End State.

(** ** The hook [useChat] *)
Module useChat.
Import State.

(** [addMessageToChat(role, content, additionalFields)]: the additional
    fields are spread last and win over [id], [role] and [content]. *)
Definition addMessageToChat (newId : string) (r : Role) (c : string)
    (additionalFields : PartialChatMessage.t) (s : State.t) : State.t :=
  setMessages (fun prev =>
    prev ++
    [ {| ChatMessage.id := default newId (PartialChatMessage.id additionalFields);
         ChatMessage.role := default r (PartialChatMessage.role additionalFields);
         ChatMessage.content := default c (PartialChatMessage.content additionalFields);
         ChatMessage.reasoning := PartialChatMessage.reasoning additionalFields;
         ChatMessage.reportSections := PartialChatMessage.reportSections additionalFields;
         ChatMessage.generatedQueries := PartialChatMessage.generatedQueries additionalFields;
         ChatMessage.step := PartialChatMessage.step additionalFields |} ]) s.

(** The body of the [forEach] of [handleExecutedQueries] at position
    [index]: the result pushed (if any) and the warning logged (if any). *)
Definition executedQueryEntry (index : nat) (executedQuery : ExecutedQuery.t)
    : list QueryResult.t * list string :=
  match ExecutedQuery.data executedQuery with
  | Some rows =>
      ([ {| QueryResult.objective :=
              JsString.orElse (ExecutedQuery.objective executedQuery)
                ("Executed Query " +:+ JsString.ofNat (index + 1));
            QueryResult.query :=
              JsString.orElse (ExecutedQuery.query executedQuery) "N/A";
            QueryResult.dataframe := rows;
            QueryResult.error := None;
            QueryResult.platform := ExecutedQuery.platform executedQuery |} ],
       [])
  | None =>
      ([],
       [ "Executed query at index " +:+ JsString.ofNat index +:+ " has no data. Skipping." ])
  end.

(** The [forEach] loop from position [index] on: [newQueryResults] and the
    warnings, in order. *)
Fixpoint executedQueriesFrom (index : nat) (executedQueries : list ExecutedQuery.t)
    : list QueryResult.t * list string :=
  match executedQueries with
  | [] => ([], [])
  | q :: rest =>
      let '(r, w) := executedQueryEntry index q in
      let '(rs, ws) := executedQueriesFrom (S index) rest in
      (r ++ rs, w ++ ws)
  end.

(** [handleExecutedQueries]: the state after, the warnings logged, and the
    returned flag. *)
Definition handleExecutedQueries (executedQueries : option (list ExecutedQuery.t))
    (s : State.t) : State.t * list string * bool :=
  match executedQueries with
  | Some qs =>
      let '(newQueryResults, warnings) := executedQueriesFrom 0 qs in
      (setQueryResults (fun _ => newQueryResults) s, warnings, true)
  | None => (s, [], false)
  end.

(** [columns?.k] *)
Definition optChain (columns : JsVal) (k : string) : JsVal :=
  match columns with
  | JObj c => Js.get c k
  | _ => JUndefined
  end.

(** The function mapped over the backend suggestions by
    [handleGraphSuggestions]. *)
Definition mapSuggestion (bs : GraphSuggestion) : GraphSuggestion :=
  let columns := Js.get bs "columns" in
  let restOfSuggestion : GraphSuggestion := delete "columns" bs in
  let mapped : GraphSuggestion :=
    <["objective" := Js.or (Js.get restOfSuggestion "objective")
                           (JStr "Unknown Objective")]> restOfSuggestion in
  let mapped : GraphSuggestion :=
    if Js.truthy (optChain columns "x")
    then <["x_axis" := optChain columns "x"]> mapped else mapped in
  let mapped : GraphSuggestion :=
    if Js.truthy (optChain columns "y")
    then <["y_axis" := optChain columns "y"]> mapped else mapped in
  mapped.

Definition handleGraphSuggestions (backendSuggestions : option (list GraphSuggestion))
    (s : State.t) : State.t :=
  match backendSuggestions with
  | Some (b :: bs) => setGraphSuggestions (map mapSuggestion (b :: bs)) s
  | _ => setGraphSuggestions [] s
  end.

(** [step?.includes(x)], falsy when [step] is absent. *)
Definition stepIncludes (step : option string) (x : string) : bool :=
  match step with
  | Some st => JsString.includes st x
  | None => false
  end.

(** [step?.endsWith(x)] *)
Definition stepEndsWith (step : option string) (x : string) : bool :=
  match step with
  | Some st => JsString.endsWith st x
  | None => false
  end.

(** [`${step?.replace(/_/g, ' ')}`] *)
Definition spaced (o : option string) : string :=
  JsString.interpolate (JsString.underscoresToSpaces <$> o).

(** The predicate of [prev.some(...)] in the [query_result] case. *)
Definition sameKey (a b : QueryResult.t) : bool :=
  String.eqb (QueryResult.objective a) (QueryResult.objective b)
  && String.eqb (QueryResult.query a) (QueryResult.query b)
  && bool_decide (QueryResult.platform a = QueryResult.platform b).

(** [prev.findLastIndex(p)], [None] for [-1]. *)
Fixpoint findLastIndex {A : Type} (p : A -> bool) (l : list A) : option nat :=
  match l with
  | [] => None
  | x :: l' =>
      match findLastIndex p l' with
      | Some i => Some (S i)
      | None => if p x then Some 0%nat else None
      end
  end.

(** The predicate of [findLastIndex] in the [reasoning_summary] case; the
    event's [step] is a non-empty string there. *)
Definition isMilestoneOf (step : string) (m : ChatMessage.t) : bool :=
  Role_eqb (ChatMessage.role m) milestone
  && bool_decide (ChatMessage.step m = Some step).

(** [content] is a string and [content.trim() !== ''] *)
Definition validContent (content : option string) : option string :=
  match content with
  | Some c => if String.eqb (JsString.trim c) "" then None else Some c
  | None => None
  end.

Definition finalReasoning (r : option string) : option string :=
  match r with
  | Some t => if JsString.truthy t then Some ("**Final Reasoning:**\n" +:+ t) else None
  | None => None
  end.

(** The check mark that starts a milestone text, as its UTF-8 bytes. *)
Definition checkMark : string := "✅".

Definition newline : string := String (ascii_of_nat 10) EmptyString.

(** The [status] case below [setCurrentStatus(statusText)], when the status
    is ["completed"] and the step is not a workflow end: the milestone text
    and the queries it carries. *)
Definition milestoneOf (m : WebSocketMessage.t)
    : string * option (list GeneratedQuery.t) :=
  let step := WebSocketMessage.step m in
  if stepIncludes step "generate" && stepIncludes step "queries"
     && bool_decide (is_Some (WebSocketMessage.generated_queries m))
  then
    let queryCount := length (default [] (WebSocketMessage.generated_queries m)) in
    let queryNoun := if (queryCount =? 1)%nat then "query" else "queries" in
    (checkMark +:+ " Query Generation Finished (" +:+ JsString.ofNat queryCount
       +:+ " " +:+ queryNoun +:+ ")",
     WebSocketMessage.generated_queries m)
  else if stepIncludes step "execute" && stepIncludes step "queries"
  then (checkMark +:+ " Query Execution Finished", None)
  else if stepIncludes step "classification"
  then (checkMark +:+ " Classification Finished", None)
  else (checkMark +:+ " " +:+ spaced step +:+ " Finished", None).

(** The [query_result] case builds this record from the payload. *)
Definition queryResultData (m : WebSocketMessage.t) : QueryResult.t :=
  {| QueryResult.objective :=
       JsString.orElse (WebSocketMessage.objective m) "Unknown Objective";
     QueryResult.query :=
       JsString.orElse (WebSocketMessage.query m) "Unknown Query";
     QueryResult.dataframe := default [] (WebSocketMessage.data m);
     QueryResult.error := WebSocketMessage.error m;
     QueryResult.platform := WebSocketMessage.platform m |}.

(** The updater passed to [setQueryResults] in the [query_result] case. *)
Definition appendIfNew (qr : QueryResult.t) (prev : list QueryResult.t)
    : list QueryResult.t :=
  if existsb (fun e => sameKey e qr) prev then prev else prev ++ [qr].

(** The updater passed to [setMessages] in the [reasoning_summary] case. *)
Definition attachReasoning (step reasoningText : string)
    (prev : list ChatMessage.t) : list ChatMessage.t :=
  match findLastIndex (isMilestoneOf step) prev with
  | Some lastMilestoneIndex =>
      match prev !! lastMilestoneIndex with
      | Some e =>
          <[lastMilestoneIndex := ChatMessage.withReasoning e reasoningText]> prev
      | None => prev
      end
  | None => prev
  end.

(** The effect on [lastJsonMessage]: one incoming message, dispatched on its
    [type]. [newId] is what [generateId] returns if the case calls it. *)
Definition onMessage (newId : string) (m : WebSocketMessage.t) (s : State.t)
    : State.t :=
  let type := WebSocketMessage.type m in
  let step := WebSocketMessage.step m in
  let status := WebSocketMessage.status m in
  if String.eqb type "connection_established" then
    if JsString.truthyOpt (WebSocketMessage.user_id m)
    then setUserId (WebSocketMessage.user_id m) s
    else s
  else if String.eqb type "status" then
    let statusText :=
      "**" +:+ spaced step +:+ "**: " +:+ spaced status +:+
      (if JsString.truthyOpt (WebSocketMessage.details m)
       then " - " +:+ JsString.interpolate (WebSocketMessage.details m)
       else "") in
    let s := setCurrentStatus (Some statusText) s in
    if stepEndsWith step "workflow_end" then
      setIsProcessing false (setCurrentStatus None s)
    else if bool_decide (status = Some "completed") then
      let '(milestoneContent, milestoneQueries) := milestoneOf m in
      if stepIncludes step "generate" || stepIncludes step "execute"
         || stepIncludes step "classification"
      then
        setMessages (fun prev =>
          prev ++
          [ {| ChatMessage.id := newId;
               ChatMessage.role := milestone;
               ChatMessage.content := milestoneContent;
               ChatMessage.reasoning := None;
               ChatMessage.reportSections := None;
               ChatMessage.generatedQueries := milestoneQueries;
               ChatMessage.step := step |} ]) s
      else s
    else s
  else if String.eqb type "classifier_info" then
    match validContent (WebSocketMessage.content m) with
    | Some messageContent =>
        setCurrentStatus (Some "Planning workflow...")
          (addMessageToChat newId assistant messageContent PartialChatMessage.empty s)
    | None => s
    end
  else if String.eqb type "classifier_answer" then
    match validContent (WebSocketMessage.content m) with
    | Some messageContent =>
        setIsProcessing false (setCurrentStatus None
          (addMessageToChat newId assistant messageContent PartialChatMessage.empty s))
    | None => setIsProcessing false (setCurrentStatus None s)
    end
  else if String.eqb type "reasoning_summary" then
    if JsString.truthyOpt step && JsString.truthyOpt (WebSocketMessage.reasoning m)
    then
      let reasoningText :=
        "**Reasoning:**" +:+ newline
          +:+ JsString.interpolate (WebSocketMessage.reasoning m) in
      setMessages (attachReasoning (JsString.interpolate step) reasoningText) s
    else s
  else if String.eqb type "final_insight" then
    let insightContent :=
      JsString.orElse (WebSocketMessage.insight m) "No final insight received." in
    let insightGraphSuggestions :=
      default [] (WebSocketMessage.graph_suggestions m) in
    let s := addMessageToChat newId assistant insightContent
               {| PartialChatMessage.id := None;
                  PartialChatMessage.role := None;
                  PartialChatMessage.content := None;
                  PartialChatMessage.reasoning :=
                    finalReasoning (WebSocketMessage.reasoning m);
                  PartialChatMessage.reportSections := None;
                  PartialChatMessage.generatedQueries := None;
                  PartialChatMessage.step := step |} s in
    let '(s, _, _) := handleExecutedQueries (WebSocketMessage.executed_queries m) s in
    let s := handleGraphSuggestions (Some insightGraphSuggestions) s in
    setIsProcessing false (setCurrentStatus None s)
  else if String.eqb type "final_recommendation" then
    let reportSections := WebSocketMessage.report_sections m in
    let recommendationGraphSuggestions := WebSocketMessage.graph_suggestions m in
    let s := setGraphSuggestions (default [] recommendationGraphSuggestions) s in
    let s := addMessageToChat newId assistant
               match reportSections with
               | Some secs =>
                   "Optimization report generated with "
                     +:+ JsString.ofNat (length secs) +:+ " sections."
               | None => "Optimization report received."
               end
               {| PartialChatMessage.id := None;
                  PartialChatMessage.role := None;
                  PartialChatMessage.content := None;
                  PartialChatMessage.reasoning :=
                    finalReasoning (WebSocketMessage.reasoning m);
                  PartialChatMessage.reportSections := reportSections;
                  PartialChatMessage.generatedQueries := None;
                  PartialChatMessage.step := step |} s in
    let '(s, _, processed) :=
      handleExecutedQueries (WebSocketMessage.executed_queries m) s in
    let s := if processed then s else setQueryResults (fun _ => []) s in
    let s := handleGraphSuggestions recommendationGraphSuggestions s in
    setIsProcessing false (setCurrentStatus None s)
  else if String.eqb type "query_result" then
    setQueryResults (appendIfNew (queryResultData m)) s
  else if String.eqb type "routing_decision" then
    s
  else if String.eqb type "error" then
    let errorMsg :=
      "**Error (" +:+ JsString.orElse step "Unknown Step" +:+ "):** "
        +:+ JsString.interpolate (WebSocketMessage.message m)
        +:+ (if JsString.truthyOpt (WebSocketMessage.details m)
             then "\n\`\`\`\n" +:+ JsString.interpolate (WebSocketMessage.details m)
                    +:+ "\`\`\`"
             else "") in
    setIsProcessing false (setCurrentStatus None
      (addMessageToChat newId system errorMsg PartialChatMessage.empty s))
  else s.

Definition displayContextStartMarker : string := "---DISPLAY_CONTEXT START---".
Definition displayContextEndMarker : string := "---DISPLAY_CONTEXT END---".
Definition queryStartMarker : string := "---QUERY START---".

Definition contextMessage (newId content : string) : ChatMessage.t :=
  {| ChatMessage.id := newId;
     ChatMessage.role := context_info;
     ChatMessage.content := content;
     ChatMessage.reasoning := None;
     ChatMessage.reportSections := None;
     ChatMessage.generatedQueries := None;
     ChatMessage.step := None |}.

Definition userMessage (newId content : string) : ChatMessage.t :=
  {| ChatMessage.id := newId;
     ChatMessage.role := user;
     ChatMessage.content := content;
     ChatMessage.reasoning := None;
     ChatMessage.reportSections := None;
     ChatMessage.generatedQueries := None;
     ChatMessage.step := None |}.

(** [parseUserMessageWithContext]: [userMessageContent] and
    [contextMessageToAdd]. Nothing inside the source's [try] can throw on a
    string, so its [catch] has no counterpart. *)
Definition parseUserMessageWithContext (newId : string) (message : string)
    : string * option ChatMessage.t :=
  if JsString.includes message displayContextStartMarker
     && JsString.includes message queryStartMarker
  then
    let queryStartIndex :=
      (JsString.indexOf message queryStartMarker 0
       + Z.of_nat (String.length queryStartMarker))%Z in
    let userMessageContent :=
      JsString.trim (JsString.substringFrom message queryStartIndex) in
    let displayContextStartIndex :=
      (JsString.indexOf message displayContextStartMarker 0
       + Z.of_nat (String.length displayContextStartMarker))%Z in
    let displayContextEndIndex :=
      JsString.indexOf message displayContextEndMarker displayContextStartIndex in
    if negb (displayContextEndIndex =? -1)%Z
       && (displayContextStartIndex <? displayContextEndIndex)%Z
    then
      let displayContextString :=
        JsString.trim
          (JsString.substring message displayContextStartIndex displayContextEndIndex) in
      if JsString.truthy displayContextString
      then (userMessageContent, Some (contextMessage newId displayContextString))
      else (userMessageContent, None)
    else (userMessageContent, None)
  else (message, None).

(** The body of the POST to [/api/frontend/chat]. *)
Module Request.
Record t : Type := { message : string; userId : string }.
End Request.

Definition isOpen (r : ReadyState) : bool :=
  match r with
  | OPEN => true
  | _ => false
  end.

(** [sendMessage] up to its [await fetch(...)]: the state after, and the
    request issued (if any). [newIds 0], [newIds 1] are the identifiers
    [generateId] returns, in call order. *)
Definition sendMessage (readyState : ReadyState) (newIds : nat -> string)
    (message : string) (s : State.t) : State.t * option Request.t :=
  if negb (isOpen readyState) then
    (setIsProcessing false
       (addMessageToChat (newIds 0%nat) system
          "Error: Cannot connect to assistant. Backend connection is closed."
          PartialChatMessage.empty s),
     None)
  else if negb (JsString.truthyOpt (userId s)) then
    (setIsProcessing false
       (addMessageToChat (newIds 0%nat) system
          "Error: Connection established, but user ID not received yet. Please wait a moment and try again."
          PartialChatMessage.empty s),
     None)
  else if negb (JsString.truthy (JsString.trim message)) then
    (s, None)
  else
    let '(userMessageContent, contextMessageToAdd) :=
      parseUserMessageWithContext (newIds 0%nat) message in
    let newMessages :=
      match contextMessageToAdd with
      | Some c => [c; userMessage (newIds 1%nat) userMessageContent]
      | None => [userMessage (newIds 0%nat) userMessageContent]
      end in
    let s' := setMessages (fun prev => prev ++ newMessages) s in
    let s' := setQueryResults (fun _ => []) s' in
    let s' := setGraphSuggestions [] s' in
    let s' := setCurrentStatus (Some "Thinking...") s' in
    let s' := setIsProcessing true s' in
    (s',
     Some {| Request.message := message;
             Request.userId := JsString.interpolate (userId s) |}).

(** How the awaited [fetch] of [sendMessage] settles. *)
Inductive FetchOutcome : Type :=
  | NotOk (detail error : option string) (statusText : string)
  | Ok (response : option string) (tool_called : bool)
  | Threw (errorMessage : option string).

(** [sendMessage] after its [await]. *)
Definition onFetchSettled (newId : string) (o : FetchOutcome) (s : State.t)
    : State.t :=
  match o with
  | NotOk detail error statusText =>
      let errorContent :=
        "Error sending message to agent: "
          +:+ JsString.orElse detail (JsString.orElse error statusText) in
      setIsProcessing false (setCurrentStatus None
        (addMessageToChat newId system errorContent PartialChatMessage.empty s))
  | Ok response tool_called =>
      let s :=
        if JsString.truthyOpt response
        then addMessageToChat newId assistant (JsString.interpolate response)
               PartialChatMessage.empty s
        else s in
      if tool_called
      then setCurrentStatus (Some "Agent processing workflow...") s
      else setIsProcessing false (setCurrentStatus None s)
  | Threw errorMessage =>
      let errorText :=
        default "Network error connecting to the agent." errorMessage in
      setIsProcessing false (setCurrentStatus None
        (addMessageToChat newId system ("Error: " +:+ errorText)
           PartialChatMessage.empty s))
  end.

(** The socket callbacks. *)
Definition onOpen (s : State.t) : State.t :=
  setIsProcessing false (setCurrentStatus None s).

Definition onClose (s : State.t) : State.t :=
  setIsProcessing false (setCurrentStatus (Some "Connection closed.")
    (setUserId None s)).

Definition onError (s : State.t) : State.t :=
  setIsProcessing false (setCurrentStatus (Some "Connection error.")
    (setUserId None s)).

(** Everything that writes the hook's state. *)
Inductive Op : Type :=
  | Incoming (newId : string) (m : WebSocketMessage.t)
  | Send (readyState : ReadyState) (newIds : nat -> string) (message : string)
  | FetchSettled (newId : string) (o : FetchOutcome)
  | SocketOpen
  | SocketClose
  | SocketError.

Definition run (op : Op) (s : State.t) : State.t :=
  match op with
  | Incoming newId m => onMessage newId m s
  | Send readyState newIds message => fst (sendMessage readyState newIds message s)
  | FetchSettled newId o => onFetchSettled newId o s
  | SocketOpen => onOpen s
  | SocketClose => onClose s
  | SocketError => onError s
  end.

(** The invariant that the specification states for the result list: no two
    entries with the same (objective, query, platform). *)
Definition key (q : QueryResult.t) : string * string * option string :=
  (QueryResult.objective q, QueryResult.query q, QueryResult.platform q).

Definition distinctKeys (l : list QueryResult.t) : Prop :=
  NoDup (key <$> l).

(** The number of entries of [l] with the key of [q]. *)
Definition countKey (q : QueryResult.t) (l : list QueryResult.t) : nat :=
  length (filter (fun e => key e = key q) l).

(** The operations in order, from state [s]. *)
Definition runAll (ops : list Op) (s : State.t) : State.t :=
  foldl (fun acc op => run op acc) s ops.

(** The [executed_queries] array that an operation hands to
    [handleExecutedQueries], if it does: only the two final events read it. *)
Definition carriesBulk (op : Op) : option (list ExecutedQuery.t) :=
  match op with
  | Incoming _ m =>
      if String.eqb (WebSocketMessage.type m) "final_insight"
         || String.eqb (WebSocketMessage.type m) "final_recommendation"
      then WebSocketMessage.executed_queries m
      else None
  | _ => None
  end.

(** The bulk replacement in the words of the specification, with "absent"
    for its "absent/empty": the element at (0-based) position [index] gives
    one result when its [data] is present, with the objective defaulting to
    "Executed Query {1-based index}" and the query to "N/A". *)
Definition bulkEntry (index : nat) (q : ExecutedQuery.t) : option QueryResult.t :=
  (fun rows =>
     {| QueryResult.objective :=
          JsString.orElse (ExecutedQuery.objective q)
            ("Executed Query " +:+ JsString.ofNat (index + 1));
        QueryResult.query := JsString.orElse (ExecutedQuery.query q) "N/A";
        QueryResult.dataframe := rows;
        QueryResult.error := None;
        QueryResult.platform := ExecutedQuery.platform q |})
  <$> ExecutedQuery.data q.

(** The warning for the element at position [index], when its [data] is
    absent. *)
Definition bulkWarning (index : nat) (q : ExecutedQuery.t) : option string :=
  match ExecutedQuery.data q with
  | Some _ => None
  | None =>
      Some ("Executed query at index " +:+ JsString.ofNat index
              +:+ " has no data. Skipping.")
  end.

Definition bulkReplacement (qs : list ExecutedQuery.t) : list QueryResult.t :=
  omap id (imap bulkEntry qs).

Definition bulkWarnings (qs : list ExecutedQuery.t) : list string :=
  omap id (imap bulkWarning qs).

(** [connectionStatus]: the label looked up under [readyState]. *)
Definition connectionStatus (readyState : ReadyState) : string :=
  match readyState with
  | CONNECTING => "Connecting"
  | OPEN => "Connected"
  | CLOSING => "Closing"
  | CLOSED => "Disconnected"
  | UNINSTANTIATED => "Uninstantiated"
  end.

(** The entries of [after] are those of [before] in the same places, up to
    their [reasoning], possibly followed by new ones. *)
Definition sameButReasoning (a b : ChatMessage.t) : Prop :=
  ChatMessage.id a = ChatMessage.id b
  /\ ChatMessage.role a = ChatMessage.role b
  /\ ChatMessage.content a = ChatMessage.content b
  /\ ChatMessage.reportSections a = ChatMessage.reportSections b
  /\ ChatMessage.generatedQueries a = ChatMessage.generatedQueries b
  /\ ChatMessage.step a = ChatMessage.step b.

Definition extends (before after : list ChatMessage.t) : Prop :=
  forall i e, before !! i = Some e ->
    exists e', after !! i = Some e' /\ sameButReasoning e e'.

(** What every suggestion kept in the state satisfies. *)
Definition stored (g : GraphSuggestion) : Prop :=
  g !! "columns" = None /\ Js.truthy (Js.get g "objective") = true.

(** The [case] labels of the dispatch. *)
Definition knownTypes : list string :=
  [ "connection_established"; "status"; "classifier_info"; "classifier_answer";
    "reasoning_summary"; "final_insight"; "final_recommendation"; "query_result";
    "routing_decision"; "error" ].

(** The text stored by the [status] case before it looks at the step. *)
Definition statusText (m : WebSocketMessage.t) : string :=
  "**" +:+ spaced (WebSocketMessage.step m) +:+ "**: "
    +:+ spaced (WebSocketMessage.status m) +:+
    (if JsString.truthyOpt (WebSocketMessage.details m)
     then " - " +:+ JsString.interpolate (WebSocketMessage.details m)
     else "").

(** The step names one of the three stages that leave a milestone. *)
Definition milestoneStep (step : option string) : bool :=
  stepIncludes step "generate" || stepIncludes step "execute"
  || stepIncludes step "classification".

(** The entry that [addMessageToChat('assistant', content)] appends. *)
Definition assistantEntry (newId content : string) : ChatMessage.t :=
  {| ChatMessage.id := newId;
     ChatMessage.role := assistant;
     ChatMessage.content := content;
     ChatMessage.reasoning := None;
     ChatMessage.reportSections := None;
     ChatMessage.generatedQueries := None;
     ChatMessage.step := None |}.

End useChat.

(** ** [DataExplorer.tsx]: the suggestion handed to the viewer *)
Module DataExplorer.

(** What [finalGraphSuggestionForViewer] evaluates to. [WriteFails] stands
    for a column role assigned to a [columns] value that is not a plain
    object, which can only come from a [columns] field spread from the raw
    suggestion (a TypeError for [null], [undefined] and primitives). *)
Inductive Normalized : Type :=
  | Null
  | Suggestion (o : GraphSuggestion)
  | WriteFails.

(** [if (cond) plotlyCompatibleSuggestion.columns.k = v] *)
Definition writeRole (k : string) (v : JsVal) (cond : bool)
    (columns : option JsVal) : option JsVal :=
  if cond then
    match columns with
    | Some (JObj c) => Some (JObj (<[k := v]> c))
    | _ => None
    end
  else columns.

(** The keys taken out of the raw suggestion by the destructuring; what is
    left is [restOfChatSuggestion]. *)
Definition destructured : list string :=
  [ "x_axis"; "y_axis"; "names"; "values"; "color_column";
    "chart_type"; "title"; "description"; "type" ].

Definition restOf (o : GraphSuggestion) : GraphSuggestion :=
  foldr delete o destructured.

Definition stringOrUndefined (v : JsVal) : JsVal :=
  if Js.isString v then v else JUndefined.

Definition finalGraphSuggestionForViewer
    (currentRawGraphSuggestion : option GraphSuggestion) : Normalized :=
  match currentRawGraphSuggestion with
  | None => Null
  | Some raw =>
      if Js.isStr (Js.get raw "type") "image" then
        Suggestion
          (<["type" := JStr "image"]>
           (<["title" := Js.get raw "title"]>
            (<["description" := Js.get raw "description"]>
             (<["image_base64" := Js.get raw "image_base64"]>
              (<["original_suggestion" := Js.get raw "original_suggestion"]> ∅)))))
      else
        let x_axis := Js.get raw "x_axis" in
        let y_axis := Js.get raw "y_axis" in
        let names := Js.get raw "names" in
        let values := Js.get raw "values" in
        let color_column := Js.get raw "color_column" in
        let chart_type := Js.get raw "chart_type" in
        let relevantType := Js.get raw "type" in
        let restOfChatSuggestion := restOf raw in
        (* the object literal: the four named fields, then the spread *)
        let literal : GraphSuggestion :=
          restOfChatSuggestion ∪
          (<["type" := if Js.isString chart_type then chart_type else relevantType]>
           (<["title" := stringOrUndefined (Js.get raw "title")]>
            (<["description" := stringOrUndefined (Js.get raw "description")]>
             (<["columns" := JObj ∅]> ∅)))) in
        let columns := literal !! "columns" in
        let columns := writeRole "x" x_axis (Js.isString x_axis) columns in
        let columns :=
          writeRole "y" y_axis (Js.isString y_axis || Js.isArray y_axis) columns in
        let columns := writeRole "names" names (Js.isString names) columns in
        let columns := writeRole "values" values (Js.isString values) columns in
        let columns :=
          writeRole "color" color_column (Js.isString color_column) columns in
        match columns with
        | None => WriteFails
        | Some cols =>
            let plotlyCompatibleSuggestion := <["columns" := cols]> literal in
            let type := Js.get plotlyCompatibleSuggestion "type" in
            if Js.isStr type "none" then
              Suggestion
                (<["type" := JStr "none"]>
                 (<["title" := Js.get plotlyCompatibleSuggestion "title"]>
                  (<["columns" := JObj ∅]> ∅)))
            else if Js.isStr type "image" then Null
            else Suggestion plotlyCompatibleSuggestion
        end
  end.

(** A backend suggestion as the viewer receives it: stored by
    [useChat.handleGraphSuggestions], then selected and transformed here. *)
Definition normalize (bs : GraphSuggestion) : Normalized :=
  finalGraphSuggestionForViewer (Some (useChat.mapSuggestion bs)).

(** The [columns] object of a normalised suggestion. *)
Definition columnsOf (n : Normalized) : option JsVal :=
  match n with
  | Suggestion o => o !! "columns"
  | _ => None
  end.

(** *** The table a graph suggestion draws from, and the two pagers *)

(** The outcome of [dataSourceForCurrentGraph]. [objective],
    [data_source_objective] and [title] are read through casts to
    [string | undefined]; a truthy value of another type among them would be
    coerced or would throw, and is [Untyped] here. *)
Inductive DataSource : Type :=
  | Untyped
  | Missing                        (* [undefined] *)
  | Found (qr : QueryResult.t).

(** The value [objectiveToMatch] holds when the first [if (!objectiveToMatch)]
    is reached. *)
Definition objectiveToMatch (cur : GraphSuggestion) : JsVal :=
  let originalSuggestion := Js.get cur "original_suggestion" in
  if Js.isStr (Js.get cur "type") "image" && Js.truthy originalSuggestion then
    match originalSuggestion with
    | JObj o =>
        (* ['data_source_objective' in originalSuggestion] *)
        match o !! "data_source_objective" with
        | Some v => v
        | None => JUndefined
        end
    | _ => JUndefined
    end
  else if negb (Js.isStr (Js.get cur "type") "image") then
    Js.or (Js.get cur "objective") (Js.get cur "data_source_objective")
  else JUndefined.

(** [queryResults.find(p) || (queryResults.length > 0 ? queryResults[0] : undefined)];
    a result found is an object, hence truthy. *)
Definition findOrFirst (p : QueryResult.t -> bool) (queryResults : list QueryResult.t)
    : DataSource :=
  match List.find p queryResults with
  | Some qr => Found qr
  | None =>
      match queryResults with
      | qr :: _ => Found qr
      | [] => Missing
      end
  end.

(** The predicate of the loose match on the title:
    [qr.objective && (title?.includes(qr.objective) || qr.objective.includes(title || ''))] *)
Definition titleMatches (title : option string) (qr : QueryResult.t) : bool :=
  JsString.truthy (QueryResult.objective qr)
  && (match title with
      | Some t => JsString.includes t (QueryResult.objective qr)
      | None => false
      end
      || JsString.includes (QueryResult.objective qr) (JsString.orElse title "")).

(** The predicate of the match on the objective:
    [qr.objective && qr.objective.includes(objectiveToMatch)] *)
Definition objectiveMatches (objective : string) (qr : QueryResult.t) : bool :=
  JsString.truthy (QueryResult.objective qr)
  && JsString.includes (QueryResult.objective qr) objective.

Definition dataSourceForCurrentGraph
    (currentRawGraphSuggestion : option GraphSuggestion)
    (queryResults : list QueryResult.t) : DataSource :=
  match currentRawGraphSuggestion with
  | None => Missing
  | Some cur =>
      let o := objectiveToMatch cur in
      if negb (Js.truthy o) then
        match Js.get cur "title" with
        | JStr t => findOrFirst (titleMatches (Some t)) queryResults
        | JUndefined | JNull => findOrFirst (titleMatches None) queryResults
        | _ => Untyped
        end
      else
        match o with
        | JStr objective => findOrFirst (objectiveMatches objective) queryResults
        | _ => Untyped
        end
  end.

(** [Math.min(prev + 1, total > 0 ? total - 1 : 0)], the updater of
    [handleNextTable] and of [handleNextGraph]. *)
Definition handleNext (total : nat) (prev : Z) : Z :=
  Z.min (prev + 1) (if (0 <? Z.of_nat total)%Z then Z.of_nat total - 1 else 0).

(** [Math.max(prev - 1, 0)], the updater of [handlePrevTable] and of
    [handlePrevGraph]. *)
Definition handlePrev (prev : Z) : Z :=
  Z.max (prev - 1) 0.

(** One half of the effect that resets or clamps an index after the totals
    changed. *)
Definition clampIndex (total : nat) (current : Z) : Z :=
  if (Z.of_nat total =? 0)%Z then 0%Z
  else if (Z.of_nat total <=? current)%Z then Z.max 0 (Z.of_nat total - 1)
  else current.

(** [xs[i]] for an index that is an integer. *)
Definition at_index {A : Type} (xs : list A) (i : Z) : option A :=
  if (i <? 0)%Z then None else xs !! Z.to_nat i.

(** [selectedTableResult], and [currentRawGraphSuggestion] likewise. *)
Definition selected {A : Type} (xs : list A) (current : Z) : option A :=
  if (0 <? Z.of_nat (length xs))%Z then at_index xs current else None.

(** [isInitialState] *)
Definition isInitialState (isProcessing : bool) (queryResults : list QueryResult.t)
    (graphSuggestions : list GraphSuggestion) : bool :=
  negb isProcessing
  && (length queryResults =? 0)%nat && (length graphSuggestions =? 0)%nat.

(** An index that selects an element of a list of [total] elements (or 0 when
    there is none). *)
Definition inRange (total : nat) (i : Z) : Prop :=
  (0 <= i)%Z /\ (i <= Z.max (Z.of_nat total - 1) 0)%Z.

End DataExplorer.

(** ** [GraphViewer.tsx]: the plot parameters *)
Module GraphViewer.

(** [string | string[]] *)
Inductive YColumn : Type :=
  | One (c : string)
  | Many (cs : list string).

Module Columns.
Record t : Type := {
  x : option string;
  y : option YColumn;
  names : option string;
  values : option string;
  color : option string
}.
End Columns.

Module PlotlyGraphSuggestion.
Record t : Type := {
  type : option string;
  columns : option Columns.t;
  title : option string;
  description : option string
}.
End PlotlyGraphSuggestion.

Module E2BImageGraphSuggestion.
Record t : Type := {
  title : option string;
  description : option string;
  image_base64 : string
}.
End E2BImageGraphSuggestion.

(** [E2BImageGraphSuggestion | PlotlyGraphSuggestion]; [null] is [None]. *)
Inductive Suggestion : Type :=
  | Image (i : E2BImageGraphSuggestion.t)
  | Plotly (p : PlotlyGraphSuggestion.t).

Definition typeOf (g : Suggestion) : option string :=
  match g with
  | Image _ => Some "image"
  | Plotly p => PlotlyGraphSuggestion.type p
  end.

(** The colour of the markers of a trace: the rows' values of the colour
    column, or one fixed colour. *)
Inductive MarkerColor : Type :=
  | ByData (colorValues : list JsVal)
  | Fixed (c : string).

(** The data-dependent fields of a trace; the constant styling (opacity,
    widths, sizes, fonts) is left out. *)
Inductive Trace : Type :=
  | XYTrace (type : string) (mode : option string) (name : string)
            (x y : list JsVal) (color : MarkerColor) (hovertemplate : string)
  | PieTrace (labels values : list JsVal) (colors : list string)
             (hovertemplate : string).

Module Layout.
Record t : Type := {
  title : string;
  xaxis : option string;   (* the axis title; [None] once set to undefined *)
  yaxis : option string;
  colorway : option (list string);
  showlegend : option bool
}.
End Layout.

Module PlotParams.
Record t : Type := { data : list Trace; layout : Layout.t }.
End PlotParams.

(** [Array.isArray(yCol) ? yCol[0] : yCol] *)
Definition yColStringOf (yCol : option YColumn) : option string :=
  match yCol with
  | Some (One c) => Some c
  | Some (Many cs) => head cs
  | None => None
  end.

(** [(Array.isArray(yCol) ? yCol.join(' & ') : yCol) || ''] *)
Fixpoint join (sep : string) (cs : list string) : string :=
  match cs with
  | [] => ""
  | [c] => c
  | c :: rest => c +:+ sep +:+ join sep rest
  end.

Definition yAxisTitle (yCol : option YColumn) : string :=
  match yCol with
  | Some (One c) => c
  | Some (Many cs) => join " & " cs
  | None => ""
  end.

(** [!col || !data[0]?.[col]] negated: the column name is a non-empty
    string and the first row's value under it is truthy. *)
Definition usable (col : option string) (firstRow : Row) : bool :=
  match col with
  | Some c => JsString.truthy c && Js.truthy (Js.get firstRow c)
  | None => false
  end.

Definition column (c : string) (data : list Row) : list JsVal :=
  map (fun row => Js.get row c) data.

Definition isXY (type : string) : bool :=
  String.eqb type "bar" || String.eqb type "line" || String.eqb type "scatter".

Definition plotParams (result : option QueryResult.t)
    (graphSuggestion : option Suggestion)
    (primaryTraceColor : string) (colorway : list string)
    : option PlotParams.t :=
  match graphSuggestion with
  | None => None
  | Some (Image _) => None
  | Some (Plotly plotlySuggestion) =>
      match PlotlyGraphSuggestion.type plotlySuggestion with
      | None => None
      | Some type =>
          if String.eqb type "image" || String.eqb type "none"
             || negb (JsString.truthy type)
          then None
          else
            let columns := PlotlyGraphSuggestion.columns plotlySuggestion in
            let plotlySpecificTitle := PlotlyGraphSuggestion.title plotlySuggestion in
            match QueryResult.dataframe <$> result with
            | None | Some [] => None
            | Some (firstRow :: _ as data) =>
                let xCol := columns ≫= Columns.x in
                let yCol := columns ≫= Columns.y in
                let nameCol := columns ≫= Columns.names in
                let valCol := columns ≫= Columns.values in
                let colorCol := columns ≫= Columns.color in
                let titleText :=
                  JsString.orElse plotlySpecificTitle
                    (JsString.orElse (QueryResult.objective <$> result)
                       "Generated Graph") in
                if isXY type then
                  let yColString := yColStringOf yCol in
                  if usable xCol firstRow && usable yColString firstRow then
                    let xc := JsString.interpolate xCol in
                    let yc := JsString.interpolate yColString in
                    let byColor := usable colorCol firstRow in
                    let trace :=
                      XYTrace
                        (if String.eqb type "line" then "scatter" else type)
                        (if String.eqb type "line" then Some "lines+markers"
                         else if String.eqb type "scatter" then Some "markers"
                         else None)
                        (JsString.orElse plotlySpecificTitle yc)
                        (column xc data) (column yc data)
                        (if byColor
                         then ByData (column (JsString.interpolate colorCol) data)
                         else Fixed primaryTraceColor)
                        ("<b>" +:+ xc +:+ ":</b> %{x}<br>"
                         +:+ "<b>" +:+ yc +:+ ":</b> %{y}<br>"
                         +:+ (if byColor
                              then "<b>" +:+ JsString.interpolate colorCol
                                     +:+ ":</b> %{marker.color}<br>"
                              else "")
                         +:+ "<extra></extra>") in
                    Some {| PlotParams.data := [trace];
                            PlotParams.layout :=
                              {| Layout.title := titleText;
                                 Layout.xaxis := Some (JsString.orElse xCol "");
                                 Layout.yaxis := Some (yAxisTitle yCol);
                                 Layout.colorway :=
                                   if byColor then None else Some colorway;
                                 Layout.showlegend := None |} |}
                  else None
                else if String.eqb type "pie" then
                  if usable nameCol firstRow && usable valCol firstRow then
                    let nc := JsString.interpolate nameCol in
                    let vc := JsString.interpolate valCol in
                    Some {| PlotParams.data :=
                              [ PieTrace (column nc data) (column vc data) colorway
                                  ("<b>" +:+ nc +:+ ":</b> %{label}<br>"
                                   +:+ "<b>" +:+ vc +:+ ":</b> %{value}<br>"
                                   +:+ "<b>Percent:</b> %{percent}<extra></extra>") ];
                            PlotParams.layout :=
                              {| Layout.title := titleText;
                                 Layout.xaxis := None;
                                 Layout.yaxis := None;
                                 Layout.colorway := Some colorway;
                                 Layout.showlegend := Some true |} |}
                  else None
                else None
            end
      end
  end.

(** The first row has the property [c] (as a key, whatever its value). *)
Definition hasKey (c : string) (firstRow : Row) : Prop :=
  is_Some (firstRow !! c).

(** *** What the card shows *)

(** The branches of the conditional rendering. *)
Inductive Content : Type :=
  | PlaceholderContent
  | ErrorBox (error : string)
  | ImageView (src alt : string)
  | PlotView (p : PlotParams.t)
  | NoGraphNeeded
  | Unavailable
  | Unrecognized
  | NoGraphData.

Definition titleOf (g : Suggestion) : option string :=
  match g with
  | Image i => E2BImageGraphSuggestion.title i
  | Plotly p => PlotlyGraphSuggestion.title p
  end.

(** [e2bSuggestion.image_base64], absent on a plot suggestion whose type says
    ["image"]. *)
Definition imageOf (g : Suggestion) : option string :=
  match g with
  | Image i => Some (E2BImageGraphSuggestion.image_base64 i)
  | Plotly _ => None
  end.

Definition typeIs (g : Suggestion) (lit : string) : bool :=
  match typeOf g with
  | Some t => String.eqb t lit
  | None => false
  end.

(** [plotParams && plotParams.data && plotParams.data.length > 0 &&
    graphSuggestion?.type !== 'image'] *)
Definition hasPlotlyData (plotParams : option PlotParams.t)
    (graphSuggestion : option Suggestion) : bool :=
  match plotParams with
  | Some p =>
      negb (length (PlotParams.data p) =? 0)%nat
      && negb (match graphSuggestion with
               | Some g => typeIs g "image"
               | None => false
               end)
  | None => false
  end.

(** The conditional rendering; [plotParams] is the memoised value it reads. *)
Definition content (result : option QueryResult.t)
    (graphSuggestion : option Suggestion)
    (isProcessing isInitialStateProp : bool)
    (plotParams : option PlotParams.t) : Content :=
  let derivedIsInitialState :=
    isInitialStateProp && negb (bool_decide (is_Some graphSuggestion))
    && negb isProcessing in
  let showLoadingPlaceholder :=
    isProcessing && negb (bool_decide (is_Some graphSuggestion)) in
  let hasPlotlyData := hasPlotlyData plotParams graphSuggestion in
  if derivedIsInitialState then PlaceholderContent
  else if showLoadingPlaceholder then PlaceholderContent
  else if JsString.truthyOpt (result ≫= QueryResult.error) then
    ErrorBox (JsString.interpolate (result ≫= QueryResult.error))
  else
    match graphSuggestion with
    | Some g =>
        if typeIs g "image" then
          ImageView ("data:image/png;base64," +:+ JsString.interpolate (imageOf g))
                    (JsString.orElse (titleOf g) "Generated Graph")
        else if JsString.truthyOpt (typeOf g) && negb (typeIs g "none") && hasPlotlyData
        then
          match plotParams with
          | Some p => PlotView p
          | None => Unrecognized   (* excluded by [hasPlotlyData] *)
          end
        else if typeIs g "none" then NoGraphNeeded
        else if JsString.truthyOpt (typeOf g) && negb (typeIs g "image")
                && negb hasPlotlyData && negb isProcessing
        then Unavailable
        else if isProcessing then PlaceholderContent
        else Unrecognized
    | None => if isProcessing then PlaceholderContent else NoGraphData
    end.


(** The two pager buttons: [disabled] of the left one and of the right one. *)
Definition prevDisabled (currentIndex : Z) (isProcessing : bool) : bool :=
  (currentIndex <=? 0)%Z || isProcessing.

Definition nextDisabled (currentIndex : Z) (totalCount : nat) (isProcessing : bool)
    : bool :=
  (Z.of_nat totalCount - 1 <=? currentIndex)%Z || isProcessing.

End GraphViewer.

(** ** Sample inputs *)
Module Samples.
Import useChat.

Definition ids (n : nat) : string := "msg_" +:+ JsString.ofNat n.

(** A connected session: the socket has announced the user. *)
Definition connected : State.t := State.setUserId (Some "u1") State.initial.

(** The same session in the middle of a turn. *)
Definition awaiting : State.t := State.setIsProcessing true connected.

Definition contextPart : string :=
  "---DISPLAY_CONTEXT START---Filtered to US---DISPLAY_CONTEXT END---".
Definition queryPart : string := "show me US revenue".
Definition markedInput : string := contextPart +:+ queryStartMarker +:+ queryPart.

Definition noneBeforeb (m s : string) (n : nat) : bool :=
  forallb (fun j => negb (String.prefix m (JsString.drop j s))) (seq 0 n).
(** Two elements of one [executed_queries] array with the same objective,
    query and platform. *)
Definition oneRow : Row := {[ "clicks" := JNum 7 ]}.

Definition executed (rows : option (list Row)) : ExecutedQuery.t :=
  {| ExecutedQuery.platform := Some "google";
     ExecutedQuery.objective := Some "Clicks by day";
     ExecutedQuery.query := Some "SELECT day, clicks FROM stats";
     ExecutedQuery.data := rows |}.

(** An incoming message with only its [type] set. *)
Definition bare (type : string) : WebSocketMessage.t :=
  {| WebSocketMessage.type := type;
     WebSocketMessage.user_id := None;
     WebSocketMessage.step := None;
     WebSocketMessage.status := None;
     WebSocketMessage.details := None;
     WebSocketMessage.reasoning := None;
     WebSocketMessage.insight := None;
     WebSocketMessage.report_sections := None;
     WebSocketMessage.graph_suggestions := None;
     WebSocketMessage.message := None;
     WebSocketMessage.generated_queries := None;
     WebSocketMessage.objective := None;
     WebSocketMessage.query := None;
     WebSocketMessage.data := None;
     WebSocketMessage.error := None;
     WebSocketMessage.content := None;
     WebSocketMessage.platform := None;
     WebSocketMessage.executed_queries := None |}.

(** [{ ...m, executed_queries: qs }] *)
Definition withExecuted (qs : list ExecutedQuery.t) (m : WebSocketMessage.t)
    : WebSocketMessage.t :=
  {| WebSocketMessage.type := WebSocketMessage.type m;
     WebSocketMessage.user_id := WebSocketMessage.user_id m;
     WebSocketMessage.step := WebSocketMessage.step m;
     WebSocketMessage.status := WebSocketMessage.status m;
     WebSocketMessage.details := WebSocketMessage.details m;
     WebSocketMessage.reasoning := WebSocketMessage.reasoning m;
     WebSocketMessage.insight := WebSocketMessage.insight m;
     WebSocketMessage.report_sections := WebSocketMessage.report_sections m;
     WebSocketMessage.graph_suggestions := WebSocketMessage.graph_suggestions m;
     WebSocketMessage.message := WebSocketMessage.message m;
     WebSocketMessage.generated_queries := WebSocketMessage.generated_queries m;
     WebSocketMessage.objective := WebSocketMessage.objective m;
     WebSocketMessage.query := WebSocketMessage.query m;
     WebSocketMessage.data := WebSocketMessage.data m;
     WebSocketMessage.error := WebSocketMessage.error m;
     WebSocketMessage.content := WebSocketMessage.content m;
     WebSocketMessage.platform := WebSocketMessage.platform m;
     WebSocketMessage.executed_queries := Some qs |}.

(** [{ ...m, step, reasoning }] *)
Definition withStepReasoning (step reasoning : string) (m : WebSocketMessage.t)
    : WebSocketMessage.t :=
  {| WebSocketMessage.type := WebSocketMessage.type m;
     WebSocketMessage.user_id := WebSocketMessage.user_id m;
     WebSocketMessage.step := Some step;
     WebSocketMessage.status := WebSocketMessage.status m;
     WebSocketMessage.details := WebSocketMessage.details m;
     WebSocketMessage.reasoning := Some reasoning;
     WebSocketMessage.insight := WebSocketMessage.insight m;
     WebSocketMessage.report_sections := WebSocketMessage.report_sections m;
     WebSocketMessage.graph_suggestions := WebSocketMessage.graph_suggestions m;
     WebSocketMessage.message := WebSocketMessage.message m;
     WebSocketMessage.generated_queries := WebSocketMessage.generated_queries m;
     WebSocketMessage.objective := WebSocketMessage.objective m;
     WebSocketMessage.query := WebSocketMessage.query m;
     WebSocketMessage.data := WebSocketMessage.data m;
     WebSocketMessage.error := WebSocketMessage.error m;
     WebSocketMessage.content := WebSocketMessage.content m;
     WebSocketMessage.platform := WebSocketMessage.platform m;
     WebSocketMessage.executed_queries := WebSocketMessage.executed_queries m |}.

(** A result already in the list. *)
Definition earlier : QueryResult.t :=
  {| QueryResult.objective := "Spend by campaign";
     QueryResult.query := "SELECT campaign, spend FROM ads";
     QueryResult.dataframe := [ {[ "spend" := JNum 12 ]} ];
     QueryResult.error := None;
     QueryResult.platform := Some "facebook" |}.

Definition withResults : State.t :=
  State.setQueryResults (fun _ => [earlier]) awaiting.

(** A milestone entry for the step [generate_queries], between two others. *)
Definition milestoneEntry : ChatMessage.t :=
  {| ChatMessage.id := "m1";
     ChatMessage.role := milestone;
     ChatMessage.content := "Query Generation Finished";
     ChatMessage.reasoning := None;
     ChatMessage.reportSections := None;
     ChatMessage.generatedQueries := None;
     ChatMessage.step := Some "generate_queries" |}.

Definition withMilestone : State.t :=
  State.setMessages
    (fun prev => prev ++ [milestoneEntry; userMessage "u2" "and by week?"])
    awaiting.

(** An incoming message with its [type] and four of its optional fields. *)
Definition event (type : string) (step status content user_id : option string)
    : WebSocketMessage.t :=
  {| WebSocketMessage.type := type;
     WebSocketMessage.user_id := user_id;
     WebSocketMessage.step := step;
     WebSocketMessage.status := status;
     WebSocketMessage.details := None;
     WebSocketMessage.reasoning := None;
     WebSocketMessage.insight := None;
     WebSocketMessage.report_sections := None;
     WebSocketMessage.graph_suggestions := None;
     WebSocketMessage.message := None;
     WebSocketMessage.generated_queries := None;
     WebSocketMessage.objective := None;
     WebSocketMessage.query := None;
     WebSocketMessage.data := None;
     WebSocketMessage.error := None;
     WebSocketMessage.content := content;
     WebSocketMessage.platform := None;
     WebSocketMessage.executed_queries := None |}.

(** A result whose query failed, and a bar suggestion. *)
Definition failed : QueryResult.t :=
  {| QueryResult.objective := "Spend by campaign";
     QueryResult.query := "SELECT campaign, spend FROM ads";
     QueryResult.dataframe := [];
     QueryResult.error := Some "timeout";
     QueryResult.platform := None |}.

Definition chart : GraphViewer.Suggestion :=
  GraphViewer.Plotly
    {| GraphViewer.PlotlyGraphSuggestion.type := Some "bar";
       GraphViewer.PlotlyGraphSuggestion.columns := None;
       GraphViewer.PlotlyGraphSuggestion.title := Some "Spend";
       GraphViewer.PlotlyGraphSuggestion.description := None |}.

(** A bar suggestion with its roles nested under [columns], and a
    [final_insight] that carries suggestions. *)
Definition nestedBar : GraphSuggestion :=
  {[ "objective" := JStr "Spend by campaign";
     "type" := JStr "bar";
     "columns" := JObj {[ "x" := JStr "campaign"; "y" := JStr "spend" ]} ]}.


(** Plot parameters with one pie trace. *)
Definition onePlot : GraphViewer.PlotParams.t :=
  {| GraphViewer.PlotParams.data :=
       [ GraphViewer.PieTrace [JStr "a"] [JNum 12] [] "" ];
     GraphViewer.PlotParams.layout :=
       {| GraphViewer.Layout.title := "Spend";
          GraphViewer.Layout.xaxis := None;
          GraphViewer.Layout.yaxis := None;
          GraphViewer.Layout.colorway := None;
          GraphViewer.Layout.showlegend := Some true |} |}.

End Samples.

(** * Properties *)

(** ** Strings *)
Module JsStringFacts.
Import JsString.

Lemma prefix_app (m t : string) : String.prefix m (m +:+ t) = true.
Proof.
  induction m as [|c m IH]; cbn [append String.prefix].
  - by destruct t.
  - destruct (ascii_dec c c) as [_|Hne]; [exact IH | by destruct Hne].
Qed.

Lemma drop_app (a b : string) : drop (String.length a) (a +:+ b) = b.
Proof. induction a as [|c a IH]; cbn [append drop String.length]; [by destruct b | exact IH]. Qed.

Lemma length_app (a b : string) :
  String.length (a +:+ b) = (String.length a + String.length b)%nat.
Proof. induction a as [|c a IH]; cbn [append String.length]; [done | by rewrite IH]. Qed.

Lemma drop_drop (n k : nat) (s : string) : drop n (drop k s) = drop (k + n) s.
Proof.
  revert s; induction k as [|k IH]; intros s; simpl; [done|].
  destruct s as [|c s]; [by destruct n | apply IH].
Qed.

Lemma substring_app (a mid rest : string) :
  String.substring (String.length a) (String.length mid) (a +:+ mid +:+ rest) = mid.
Proof.
  induction a as [|c a IH]; cbn [append String.length String.substring]; [|exact IH].
  induction mid as [|d mid IHm]; cbn [append String.length String.substring];
    [by destruct rest | by rewrite IHm].
Qed.

Lemma indexOf_at_first (m pre post : string) (i : nat) :
  noneBefore m (pre +:+ m +:+ post) (String.length pre) ->
  indexOf_at m (pre +:+ m +:+ post) i = Some (i + String.length pre)%nat.
Proof.
  revert i; induction pre as [|c pre IH]; intros i Hnone.
  - cbn [append String.length].
    destruct (m +:+ post) eqn:E; cbn [indexOf_at]; rewrite <- ?E, prefix_app;
      f_equal; lia.
  - pose proof (Hnone 0%nat ltac:(simpl; lia)) as H0. cbn [drop append] in H0.
    cbn [append indexOf_at String.length]. rewrite H0.
    rewrite IH; [f_equal; lia|].
    intros j Hj. apply (Hnone (S j)). simpl; lia.
Qed.

Lemma indexOf_first (m pre post : string) :
  noneBefore m (pre +:+ m +:+ post) (String.length pre) ->
  indexOf (pre +:+ m +:+ post) m 0 = Z.of_nat (String.length pre).
Proof.
  intros H. unfold indexOf.
  change (clamp (pre +:+ m +:+ post) 0) with 0%nat.
  change (drop 0 (pre +:+ m +:+ post)) with (pre +:+ m +:+ post).
  by rewrite (indexOf_at_first m pre post 0 H).
Qed.

Lemma clamp_of_nat (s : string) (n : nat) :
  (n <= String.length s)%nat -> clamp s (Z.of_nat n) = n.
Proof. intros H. unfold clamp. rewrite Nat2Z.id. lia. Qed.

(** The occurrence search restarted at position [length a]. *)
Lemma indexOf_from (m a pre post : string) :
  noneBefore m (pre +:+ m +:+ post) (String.length pre) ->
  indexOf (a +:+ pre +:+ m +:+ post) m (Z.of_nat (String.length a))
  = Z.of_nat (String.length a + String.length pre).
Proof.
  intros H. unfold indexOf.
  rewrite clamp_of_nat by (rewrite length_app; lia).
  rewrite drop_app. by rewrite (indexOf_at_first m pre post _ H).
Qed.

Lemma includes_first (m pre post : string) :
  noneBefore m (pre +:+ m +:+ post) (String.length pre) ->
  includes (pre +:+ m +:+ post) m = true.
Proof.
  intros H. unfold includes. rewrite indexOf_first by done.
  apply negb_true_iff, Z.eqb_neq. lia.
Qed.

Lemma substringFrom_after (m pre post : string) :
  substringFrom (pre +:+ m +:+ post)
    (Z.of_nat (String.length pre) + Z.of_nat (String.length m)) = post.
Proof.
  unfold substringFrom. rewrite <- Nat2Z.inj_add, clamp_of_nat.
  - rewrite <- drop_drop, drop_app. apply drop_app.
  - rewrite !length_app. lia.
Qed.

Lemma trimEnd_empty (s : string) : trimEnd s = "" -> all_ws s = true.
Proof.
  induction s as [|c s IH]; simpl; [done|].
  destruct (trimEnd s); [|done].
  destruct (is_ws c); [intros _; by rewrite IH | done].
Qed.

Lemma trim_empty (s : string) : trim s = "" -> all_ws s = true.
Proof.
  unfold trim. induction s as [|c s IH]; [done|].
  cbn [trimStart all_ws]. destruct (is_ws c) eqn:E; [exact IH|].
  intros H. apply trimEnd_empty in H. simpl in H. by rewrite E in H.
Qed.

Lemma all_ws_app (a b : string) : all_ws (a +:+ b) = all_ws a && all_ws b.
Proof.
  induction a as [|c a IH]; cbn [append all_ws]; [done | by rewrite IH, andb_assoc].
Qed.

Lemma all_ws_trim (s : string) : all_ws s = true -> trim s = "".
Proof.
  unfold trim. induction s as [|c s IH]; [done|].
  simpl. intros [Hc Hs]%andb_true_iff. rewrite Hc. by apply IH.
Qed.
End JsStringFacts.

Module SendFacts.
Import useChat JsString JsStringFacts.

Lemma app_assoc (a b c : string) : (a +:+ b) +:+ c = a +:+ b +:+ c.
Proof. induction a as [|x a IH]; simpl; [done | by rewrite IH]. Qed.

Lemma includes_all_ws (s m : string) :
  all_ws m = false -> includes s m = true -> all_ws s = false.
Proof.
  intros Hm. unfold includes, indexOf.
  change (clamp s 0) with 0%nat. change (drop 0 s) with s.
  generalize 0%nat. induction s as [|c s IH]; intros i; cbn [indexOf_at].
  - destruct m; [done|]. simpl. done.
  - destruct (String.prefix m (String c s)) eqn:E.
    + intros _. apply prefix_correct in E.
      destruct (all_ws (String c s)) eqn:Hall; [|done].
      assert (all_ws m = true) as Habs; [|congruence].
      rewrite <- E. clear -Hall. revert Hall.
      generalize (String c s) as t. generalize (String.length m) as n.
      induction n as [|n IHn]; intros [|d t]; simpl; try done.
      intros [-> ?]%andb_true_iff. simpl. by apply IHn.
    + intros H. apply IH in H. simpl. rewrite H. apply andb_false_r.
Qed.

Lemma marker_not_blank (message : string) :
  includes message queryStartMarker = true ->
  JsString.truthy (trim message) = true.
Proof.
  intros H. apply (includes_all_ws message queryStartMarker) in H; [|by vm_compute].
  unfold JsString.truthy. destruct (String.eqb_spec (trim message) ""); [|done].
  apply trim_empty in e. congruence.
Qed.

Lemma parse_content (newId pre post : string) :
  let message := pre +:+ queryStartMarker +:+ post in
  noneBefore queryStartMarker message (String.length pre) ->
  includes message displayContextStartMarker = true ->
  fst (parseUserMessageWithContext newId message) = trim post.
Proof.
  intros message Hq Hc. unfold parseUserMessageWithContext.
  rewrite Hc. subst message. rewrite includes_first by done. cbn [andb].
  rewrite indexOf_first by done. rewrite substringFrom_after.
  repeat match goal with |- context [if ?b then _ else _] => destruct b end; done.
Qed.

Lemma parse_context_shape (newId message : string) :
  snd (parseUserMessageWithContext newId message) = None
  \/ exists c, c <> "" /\
       snd (parseUserMessageWithContext newId message) = Some (contextMessage newId c).
Proof.
  unfold parseUserMessageWithContext.
  repeat match goal with
         | |- context [if ?b then _ else _] => destruct b eqn:?
         end; cbn [snd]; auto.
  right. eexists. split; [|done].
  intros E. unfold JsString.truthy in *. rewrite E in *. done.
Qed.

Lemma parse_context (newId a mid rest : string) :
  let message :=
    a +:+ displayContextStartMarker +:+ mid +:+ displayContextEndMarker +:+ rest in
  noneBefore displayContextStartMarker message (String.length a) ->
  noneBefore displayContextEndMarker (mid +:+ displayContextEndMarker +:+ rest)
    (String.length mid) ->
  includes message queryStartMarker = true ->
  snd (parseUserMessageWithContext newId message)
  = if String.eqb (trim mid) "" then None
    else Some (contextMessage newId (trim mid)).
Proof.
  intros message Hs He Hq. unfold parseUserMessageWithContext.
  rewrite Hq. subst message. rewrite includes_first by done. cbn [andb].
  rewrite (indexOf_first displayContextStartMarker a) by done.
  rewrite <- Nat2Z.inj_add.
  assert (Hlen : String.length (a +:+ displayContextStartMarker)
                 = (String.length a + String.length displayContextStartMarker)%nat)
    by apply length_app.
  rewrite <- Hlen.
  rewrite <- (app_assoc a displayContextStartMarker).
  rewrite (indexOf_from displayContextEndMarker _ mid rest He).
  set (pre := a +:+ displayContextStartMarker) in *.
  destruct mid as [|c mid].
  - cbn [String.length]. rewrite Nat.add_0_r, Z.ltb_irrefl, andb_false_r. done.
  - assert ((Z.of_nat (String.length pre)
             <? Z.of_nat (String.length pre + String.length (String c mid)))%Z = true)
      as -> by (apply Z.ltb_lt; simpl; lia).
    assert ((Z.of_nat (String.length pre + String.length (String c mid)) =? -1)%Z = false)
      as -> by (apply Z.eqb_neq; lia).
    cbn [negb andb].
    unfold JsString.substring.
    rewrite !clamp_of_nat by (rewrite !length_app; simpl; lia).
    rewrite Nat.min_l, Nat.max_r by lia.
    replace (String.length pre + String.length (String c mid) - String.length pre)%nat
      with (String.length (String c mid)) by lia.
    rewrite substring_app. unfold JsString.truthy.
    destruct (String.eqb (trim (String c mid)) ""); done.
Qed.
End SendFacts.

(** ** Sending a message *)
Module SendMessageProps.
Import useChat JsString JsStringFacts SendFacts Samples.

Lemma noneBeforeb_sound (m s : string) (n : nat) :
  noneBeforeb m s n = true -> noneBefore m s n.
Proof.
  unfold noneBeforeb. rewrite forallb_forall. intros H j Hj.
  apply negb_true_iff, H, in_seq. lia.
Qed.

(** C5 (as amended). For an input that holds both markers, with the first
    query-start marker after [pre] and followed by [post]: the request
    posted to the backend carries the input unchanged; the transcript gains
    a user entry whose content is [post] trimmed, preceded by at most one
    context entry; and when the first context-start marker is followed by
    [mid] and then the first context-end marker, that context entry is there
    exactly when [mid] trimmed is not empty, and holds it. *)
Theorem sendMessage_context_marked
    (newIds : nat -> string) (s : State.t) (u pre post : string) :
  let message := pre +:+ queryStartMarker +:+ post in
  State.userId s = Some u ->
  JsString.truthy u = true ->
  noneBefore queryStartMarker message (String.length pre) ->
  includes message displayContextStartMarker = true ->
  exists ctx s',
    sendMessage OPEN newIds message s
    = (s', Some {| Request.message := message; Request.userId := u |})
    /\ State.messages s'
       = State.messages s ++ ctx ++ [userMessage (newIds (length ctx)) (trim post)]
    /\ (ctx = [] \/ exists c, c <> "" /\ ctx = [contextMessage (newIds 0%nat) c])
    /\ (forall a mid rest,
          message = a +:+ displayContextStartMarker +:+ mid
                      +:+ displayContextEndMarker +:+ rest ->
          noneBefore displayContextStartMarker message (String.length a) ->
          noneBefore displayContextEndMarker
            (mid +:+ displayContextEndMarker +:+ rest) (String.length mid) ->
          ctx = if String.eqb (trim mid) "" then []
                else [contextMessage (newIds 0%nat) (trim mid)]).
Proof.
  intros message Hu Htruthy Hq Hc.
  pose proof (includes_first _ _ _ Hq) as Hincl. fold message in Hincl.
  pose proof (parse_content (newIds 0%nat) pre post Hq Hc) as Hfst.
  fold message in Hfst.
  unfold sendMessage. cbn [isOpen negb]. rewrite Hu. cbn [truthyOpt].
  rewrite Htruthy, (marker_not_blank message Hincl). cbn [negb interpolate].
  destruct (parseUserMessageWithContext (newIds 0%nat) message)
    as [content [c|]] eqn:Hparse; cbn [fst] in Hfst; subst content.
  - exists [c]. eexists. split; [reflexivity|]. split; [reflexivity|].
    destruct (parse_context_shape (newIds 0%nat) message) as [Hn|(c' & Hne & Hs)];
      rewrite Hparse in *; cbn [snd] in *; [done|].
    injection Hs as ->. split; [right; eauto|].
    intros a mid rest Hm Hs He.
    pose proof (parse_context (newIds 0%nat) a mid rest) as Hctx.
    cbv zeta in Hctx. rewrite <- Hm in Hctx.
    specialize (Hctx Hs He Hincl). rewrite Hparse in Hctx. cbn [snd] in Hctx.
    destruct (String.eqb (trim mid) ""); [done|]. by injection Hctx as <-.
  - exists []. eexists. split; [reflexivity|]. split; [reflexivity|].
    split; [by left|].
    intros a mid rest Hm Hs He.
    pose proof (parse_context (newIds 0%nat) a mid rest) as Hctx.
    cbv zeta in Hctx. rewrite <- Hm in Hctx.
    specialize (Hctx Hs He Hincl). rewrite Hparse in Hctx. cbn [snd] in Hctx.
    destruct (String.eqb (trim mid) ""); done.
Qed.

Lemma sendMessage_context_marked_witness :
  exists ctx s',
    sendMessage OPEN ids markedInput connected
    = (s', Some {| Request.message := markedInput; Request.userId := "u1" |})
    /\ State.messages s'
       = State.messages connected ++ ctx
           ++ [userMessage (ids (length ctx)) (trim queryPart)]
    /\ (ctx = [] \/ exists c, c <> "" /\ ctx = [contextMessage (ids 0%nat) c])
    /\ (forall a mid rest,
          markedInput = a +:+ displayContextStartMarker +:+ mid
                      +:+ displayContextEndMarker +:+ rest ->
          noneBefore displayContextStartMarker markedInput (String.length a) ->
          noneBefore displayContextEndMarker
            (mid +:+ displayContextEndMarker +:+ rest) (String.length mid) ->
          ctx = if String.eqb (trim mid) "" then []
                else [contextMessage (ids 0%nat) (trim mid)]).
Proof.
  apply (sendMessage_context_marked ids connected "u1" contextPart queryPart).
  - reflexivity.
  - reflexivity.
  - apply noneBeforeb_sound. vm_compute. reflexivity.
  - vm_compute. reflexivity.
Defined.

(** The scenario of the specification, evaluated. *)
Example sendMessage_scenario :
  map (fun m => (ChatMessage.role m, ChatMessage.content m))
      (State.messages (fst (sendMessage OPEN ids markedInput connected)))
  = [ (system, "Hello! I am your Insight Assistant. Ask me to analyze your data or suggest optimizations.");
      (context_info, "Filtered to US");
      (user, "show me US revenue") ].
Proof. vm_compute. reflexivity. Qed.

(** C5, as stated, fails: the backend is sent the whole input, markers and
    context included, not the text after the query-start marker. *)
Lemma sendMessage_posts_whole_input :
  Request.message <$> snd (sendMessage OPEN ids markedInput connected)
  = Some markedInput
  /\ Request.message <$> snd (sendMessage OPEN ids markedInput connected)
     <> Some "show me US revenue".
Proof. split; [vm_compute; reflexivity | vm_compute; discriminate]. Qed.

(** C3 (as amended). A call made while the socket is not open, or before the
    user id has arrived, appends one system entry, sets the processing flag
    to false, changes nothing else and posts nothing. A call with blank text
    on an open socket with a user id changes nothing at all. *)
Theorem sendMessage_guards
    (readyState : ReadyState) (newIds : nat -> string) (message : string)
    (s : State.t) :
  (isOpen readyState = false \/ truthyOpt (State.userId s) = false ->
   exists e,
     ChatMessage.role e = system
     /\ sendMessage readyState newIds message s
        = (State.setIsProcessing false
             (State.setMessages (fun prev => prev ++ [e]) s), None))
  /\ (isOpen readyState = true ->
      truthyOpt (State.userId s) = true ->
      trim message = "" ->
      sendMessage readyState newIds message s = (s, None)).
Proof.
  split.
  - intros H. unfold sendMessage, addMessageToChat.
    destruct (isOpen readyState); cbn [negb].
    + destruct H as [H|H]; [done|]. rewrite H. cbn [negb].
      eexists. split; [|reflexivity]. reflexivity.
    + eexists. split; [|reflexivity]. reflexivity.
  - intros Ho Hu Hm. unfold sendMessage. rewrite Ho, Hu, Hm. reflexivity.
Qed.

Lemma sendMessage_guards_witness :
  (exists e,
     ChatMessage.role e = system
     /\ sendMessage CLOSED ids "hello" awaiting
        = (State.setIsProcessing false
             (State.setMessages (fun prev => prev ++ [e]) awaiting), None))
  /\ sendMessage OPEN ids "   " awaiting = (awaiting, None).
Proof.
  split.
  - apply (sendMessage_guards CLOSED ids "hello" awaiting). left. reflexivity.
  - apply (sendMessage_guards OPEN ids "   " awaiting); reflexivity.
Defined.

(** C3, as stated, fails for blank text: on an open socket with a user id
    the call returns at once; no system entry is added and a processing flag
    that was true stays true. *)
Lemma sendMessage_blank_is_silent :
  sendMessage OPEN ids "   " awaiting = (awaiting, None)
  /\ State.isProcessing (fst (sendMessage OPEN ids "   " awaiting)) = true
  /\ State.messages (fst (sendMessage OPEN ids "   " awaiting))
     = State.messages awaiting.
Proof. vm_compute. auto. Qed.
End SendMessageProps.

(** ** The incoming messages, case by case *)
Module HookFacts.
Import useChat.

Lemma onMessage_connection_established newId m s :
  WebSocketMessage.type m = "connection_established" ->
  onMessage newId m s
  = if JsString.truthyOpt (WebSocketMessage.user_id m)
    then State.setUserId (WebSocketMessage.user_id m) s else s.
Proof. intros E. unfold onMessage. rewrite E. reflexivity. Qed.

Lemma onMessage_status newId m s :
  WebSocketMessage.type m = "status" ->
  onMessage newId m s
  = let s1 := State.setCurrentStatus (Some (statusText m)) s in
    if stepEndsWith (WebSocketMessage.step m) "workflow_end" then
      State.setIsProcessing false (State.setCurrentStatus None s1)
    else if bool_decide (WebSocketMessage.status m = Some "completed")
            && milestoneStep (WebSocketMessage.step m)
    then
      State.setMessages (fun prev =>
        prev ++
        [ {| ChatMessage.id := newId;
             ChatMessage.role := milestone;
             ChatMessage.content := fst (milestoneOf m);
             ChatMessage.reasoning := None;
             ChatMessage.reportSections := None;
             ChatMessage.generatedQueries := snd (milestoneOf m);
             ChatMessage.step := WebSocketMessage.step m |} ]) s1
    else s1.
Proof.
  intros E. unfold onMessage. rewrite E. cbv zeta.
  change (String.eqb "status" "connection_established") with false.
  change (String.eqb "status" "status") with true. cbv iota.
  fold (statusText m). unfold milestoneStep.
  destruct (stepEndsWith _ _); [reflexivity|].
  destruct (bool_decide _); [|reflexivity]. cbn [andb].
  destruct (milestoneOf m) as [c q]. reflexivity.
Qed.

Lemma onMessage_classifier_info newId m s :
  WebSocketMessage.type m = "classifier_info" ->
  onMessage newId m s
  = match validContent (WebSocketMessage.content m) with
    | Some messageContent =>
        State.setCurrentStatus (Some "Planning workflow...")
          (addMessageToChat newId assistant messageContent PartialChatMessage.empty s)
    | None => s
    end.
Proof. intros E. unfold onMessage. rewrite E. reflexivity. Qed.

Lemma onMessage_classifier_answer newId m s :
  WebSocketMessage.type m = "classifier_answer" ->
  onMessage newId m s
  = match validContent (WebSocketMessage.content m) with
    | Some messageContent =>
        State.setIsProcessing false (State.setCurrentStatus None
          (addMessageToChat newId assistant messageContent PartialChatMessage.empty s))
    | None => State.setIsProcessing false (State.setCurrentStatus None s)
    end.
Proof. intros E. unfold onMessage. rewrite E. reflexivity. Qed.

Lemma onMessage_reasoning_summary newId m s :
  WebSocketMessage.type m = "reasoning_summary" ->
  onMessage newId m s
  = if JsString.truthyOpt (WebSocketMessage.step m)
       && JsString.truthyOpt (WebSocketMessage.reasoning m)
    then State.setMessages
           (attachReasoning (JsString.interpolate (WebSocketMessage.step m))
              ("**Reasoning:**" +:+ newline
                 +:+ JsString.interpolate (WebSocketMessage.reasoning m))) s
    else s.
Proof. intros E. unfold onMessage. rewrite E. reflexivity. Qed.

Lemma onMessage_final_insight newId m s :
  WebSocketMessage.type m = "final_insight" ->
  exists e rs,
    ChatMessage.role e = assistant
    /\ rs = match WebSocketMessage.executed_queries m with
            | Some qs => fst (executedQueriesFrom 0 qs)
            | None => State.queryResults s
            end
    /\ onMessage newId m s
       = {| State.userId := State.userId s;
            State.messages := State.messages s ++ [e];
            State.queryResults := rs;
            State.currentStatus := None;
            State.isProcessing := false;
            State.graphSuggestions :=
              map mapSuggestion (default [] (WebSocketMessage.graph_suggestions m)) |}.
Proof.
  intros E. unfold onMessage. rewrite E. cbv zeta.
  change (String.eqb "final_insight" "connection_established") with false.
  change (String.eqb "final_insight" "status") with false.
  change (String.eqb "final_insight" "classifier_info") with false.
  change (String.eqb "final_insight" "classifier_answer") with false.
  change (String.eqb "final_insight" "reasoning_summary") with false.
  change (String.eqb "final_insight" "final_insight") with true. cbv iota.
  unfold handleExecutedQueries, handleGraphSuggestions, addMessageToChat.
  destruct (WebSocketMessage.executed_queries m) as [qs|].
  - destruct (executedQueriesFrom 0 qs) as [rs ws].
    destruct (default [] (WebSocketMessage.graph_suggestions m)) eqn:G;
      eexists; eexists; (split; [|split; [reflexivity|reflexivity]]); reflexivity.
  - destruct (default [] (WebSocketMessage.graph_suggestions m)) eqn:G;
      eexists; eexists; (split; [|split; [reflexivity|reflexivity]]); reflexivity.
Qed.

Lemma onMessage_final_recommendation newId m s :
  WebSocketMessage.type m = "final_recommendation" ->
  exists e rs,
    ChatMessage.role e = assistant
    /\ rs = match WebSocketMessage.executed_queries m with
            | Some qs => fst (executedQueriesFrom 0 qs)
            | None => []
            end
    /\ onMessage newId m s
       = {| State.userId := State.userId s;
            State.messages := State.messages s ++ [e];
            State.queryResults := rs;
            State.currentStatus := None;
            State.isProcessing := false;
            State.graphSuggestions :=
              map mapSuggestion (default [] (WebSocketMessage.graph_suggestions m)) |}.
Proof.
  intros E. unfold onMessage. rewrite E. cbv zeta.
  change (String.eqb "final_recommendation" "connection_established") with false.
  change (String.eqb "final_recommendation" "status") with false.
  change (String.eqb "final_recommendation" "classifier_info") with false.
  change (String.eqb "final_recommendation" "classifier_answer") with false.
  change (String.eqb "final_recommendation" "reasoning_summary") with false.
  change (String.eqb "final_recommendation" "final_insight") with false.
  change (String.eqb "final_recommendation" "final_recommendation") with true.
  cbv iota.
  unfold handleExecutedQueries, handleGraphSuggestions, addMessageToChat.
  destruct (WebSocketMessage.executed_queries m) as [qs|].
  - destruct (executedQueriesFrom 0 qs) as [rs ws].
    destruct (WebSocketMessage.graph_suggestions m) as [[|g gs]|];
      eexists; eexists; (split; [|split; [reflexivity|reflexivity]]); reflexivity.
  - destruct (WebSocketMessage.graph_suggestions m) as [[|g gs]|];
      eexists; eexists; (split; [|split; [reflexivity|reflexivity]]); reflexivity.
Qed.

Lemma onMessage_query_result newId m s :
  WebSocketMessage.type m = "query_result" ->
  onMessage newId m s
  = State.setQueryResults (appendIfNew (queryResultData m)) s.
Proof. intros E. unfold onMessage. rewrite E. reflexivity. Qed.

Lemma onMessage_routing_decision newId m s :
  WebSocketMessage.type m = "routing_decision" -> onMessage newId m s = s.
Proof. intros E. unfold onMessage. rewrite E. reflexivity. Qed.

Lemma onMessage_error newId m s :
  WebSocketMessage.type m = "error" ->
  exists tail,
    onMessage newId m s
    = State.setIsProcessing false (State.setCurrentStatus None
        (addMessageToChat newId system
           ("**Error (" +:+ JsString.orElse (WebSocketMessage.step m) "Unknown Step"
              +:+ "):** " +:+ tail)
           PartialChatMessage.empty s)).
Proof. intros E. unfold onMessage. rewrite E. eexists. reflexivity. Qed.

Lemma onMessage_unknown newId m s :
  WebSocketMessage.type m ∉ knownTypes -> onMessage newId m s = s.
Proof.
  intros H. unfold onMessage. cbv zeta.
  repeat match goal with
    | |- context [String.eqb (WebSocketMessage.type m) ?lit] =>
        destruct (String.eqb_spec (WebSocketMessage.type m) lit) as [E|_];
        [exfalso; apply H; rewrite E; unfold knownTypes; set_solver|]
    end.
  reflexivity.
Qed.

(** Every incoming message falls under one of the cases above. *)
Lemma type_cases (m : WebSocketMessage.t) :
  WebSocketMessage.type m ∈ knownTypes \/ WebSocketMessage.type m ∉ knownTypes.
Proof. destruct (decide (WebSocketMessage.type m ∈ knownTypes)); auto. Qed.

End HookFacts.

(** ** The hook beyond the result list *)
Module HookProps.
Import useChat HookFacts Samples.

Lemma extends_refl (l : list ChatMessage.t) : extends l l.
Proof. intros i e H. exists e. unfold sameButReasoning. auto 10. Qed.

Lemma extends_app (l tail : list ChatMessage.t) : extends l (l ++ tail).
Proof.
  intros i e H. exists e. split; [by apply lookup_app_l_Some|].
  unfold sameButReasoning. auto 10.
Qed.

Lemma extends_trans (a b c : list ChatMessage.t) :
  extends a b -> extends b c -> extends a c.
Proof.
  intros Hab Hbc i e H. destruct (Hab i e H) as (e' & H' & S1).
  destruct (Hbc i e' H') as (e'' & H'' & S2). exists e''. split; [done|].
  destruct S1 as (?&?&?&?&?&?), S2 as (?&?&?&?&?&?).
  unfold sameButReasoning. repeat split; congruence.
Qed.

Lemma extends_length (a b : list ChatMessage.t) :
  extends a b -> length a <= length b.
Proof.
  intros H. destruct a as [|x l _] using rev_ind; [simpl; lia|].
  destruct (H (length l) x) as (e' & He' & _).
  { by rewrite lookup_app_r, Nat.sub_diag. }
  apply lookup_lt_Some in He'. rewrite length_app. simpl. lia.
Qed.

Lemma extends_attachReasoning (step text : string) (l : list ChatMessage.t) :
  extends l (attachReasoning step text l).
Proof.
  unfold attachReasoning.
  destruct (findLastIndex _ l) as [k|]; [|apply extends_refl].
  destruct (l !! k) as [x|] eqn:Hk; [|apply extends_refl].
  intros i e H. destruct (decide (i = k)) as [->|Hne].
  - exists (ChatMessage.withReasoning x text). split.
    + apply list_lookup_insert_eq. by eapply lookup_lt_Some.
    + rewrite Hk in H. injection H as <-. unfold sameButReasoning. auto 10.
  - exists e. split; [by rewrite list_lookup_insert_ne|].
    unfold sameButReasoning. auto 10.
Qed.

Lemma knownTypes_inv (t : string) :
  t ∈ knownTypes ->
  t = "connection_established" \/ t = "status" \/ t = "classifier_info"
  \/ t = "classifier_answer" \/ t = "reasoning_summary" \/ t = "final_insight"
  \/ t = "final_recommendation" \/ t = "query_result" \/ t = "routing_decision"
  \/ t = "error".
Proof.
  unfold knownTypes. intros H.
  repeat (apply elem_of_cons in H as [H|H]; [tauto|]).
  by apply elem_of_nil in H.
Qed.

(** The case analysis that the proofs about [onMessage] share: rewrite with
    the equation of the case at hand. *)
Ltac by_case newId m s :=
  let H := fresh "Htype" in
  destruct (type_cases m) as [H|H];
  [ apply knownTypes_inv in H;
    destruct H as [H|[H|[H|[H|[H|[H|[H|[H|[H|H]]]]]]]]];
    [ rewrite (onMessage_connection_established newId m s H)
    | rewrite (onMessage_status newId m s H)
    | rewrite (onMessage_classifier_info newId m s H)
    | rewrite (onMessage_classifier_answer newId m s H)
    | rewrite (onMessage_reasoning_summary newId m s H)
    | destruct (onMessage_final_insight newId m s H) as (? & ? & ? & ? & ->)
    | destruct (onMessage_final_recommendation newId m s H) as (? & ? & ? & ? & ->)
    | rewrite (onMessage_query_result newId m s H)
    | rewrite (onMessage_routing_decision newId m s H)
    | destruct (onMessage_error newId m s H) as (? & ->) ]
  | rewrite (onMessage_unknown newId m s H) ].

Ltac split_ifs :=
  repeat match goal with
         | |- context [if ?b then _ else _] => destruct b eqn:?
         | |- context [match validContent ?c with _ => _ end] =>
             destruct (validContent c) eqn:?
         end.

Lemma onMessage_extends newId m s :
  extends (State.messages s) (State.messages (onMessage newId m s)).
Proof.
  by_case newId m s; cbv zeta; split_ifs;
    cbn [State.messages State.setUserId State.setCurrentStatus State.setIsProcessing
         State.setMessages State.setQueryResults addMessageToChat];
    first [ apply extends_refl | apply extends_app | apply extends_attachReasoning ].
Qed.

Lemma sendMessage_extends readyState newIds text s :
  extends (State.messages s)
          (State.messages (fst (sendMessage readyState newIds text s))).
Proof.
  unfold sendMessage. split_ifs; try destruct (parseUserMessageWithContext _ _) as [c [x|]];
    cbn [fst State.messages State.setUserId State.setCurrentStatus
         State.setIsProcessing State.setMessages State.setQueryResults
         State.setGraphSuggestions addMessageToChat];
    first [ apply extends_refl | apply extends_app ].
Qed.

Lemma onFetchSettled_extends newId o s :
  extends (State.messages s) (State.messages (onFetchSettled newId o s)).
Proof.
  destruct o; cbn [onFetchSettled]; cbv zeta; split_ifs;
    cbn [fst State.messages State.setUserId State.setCurrentStatus
         State.setIsProcessing State.setMessages addMessageToChat];
    first [ apply extends_refl | apply extends_app ].
Qed.

Lemma run_extends (op : Op) (s : State.t) :
  extends (State.messages s) (State.messages (run op s)).
Proof.
  destruct op; cbn [run].
  - apply onMessage_extends.
  - apply sendMessage_extends.
  - apply onFetchSettled_extends.
  - apply extends_refl.
  - apply extends_refl.
  - apply extends_refl.
Qed.

(** X1. Whatever the operations, an entry of the transcript stays at its
    place and keeps its id, role, content, sections, queries and step; only
    its reasoning may differ afterwards. Nothing is removed or reordered. *)
Theorem transcript_only_grows (ops : list Op) (s : State.t) :
  extends (State.messages s) (State.messages (runAll ops s))
  /\ length (State.messages s) <= length (State.messages (runAll ops s)).
Proof.
  assert (H : extends (State.messages s) (State.messages (runAll ops s))).
  { revert s. induction ops as [|op ops IH]; intros s; [apply extends_refl|].
    cbn [runAll foldl]. eapply extends_trans; [apply run_extends|apply IH]. }
  split; [exact H|]. by apply extends_length.
Qed.

Lemma sendMessage_posted (newIds : nat -> string) (text u : string) (s : State.t) :
  State.userId s = Some u ->
  JsString.truthy u = true ->
  JsString.truthy (JsString.trim text) = true ->
  exists entries,
    sendMessage OPEN newIds text s
    = ({| State.userId := Some u;
          State.messages := State.messages s ++ entries;
          State.queryResults := [];
          State.currentStatus := Some "Thinking...";
          State.isProcessing := true;
          State.graphSuggestions := [] |},
       Some {| Request.message := text; Request.userId := u |})
    /\ (exists e, last entries = Some e /\ ChatMessage.role e = user)
    /\ (length entries = 1 \/ length entries = 2)%nat.
Proof.
  intros Hu Ht Htext. unfold sendMessage. cbn [isOpen negb]. rewrite Hu.
  cbn [JsString.truthyOpt JsString.interpolate]. rewrite Ht, Htext. cbn [negb].
  destruct (parseUserMessageWithContext (newIds 0%nat) text) as [c [x|]];
    unfold State.setIsProcessing, State.setCurrentStatus, State.setGraphSuggestions,
      State.setQueryResults, State.setMessages;
    cbn [State.userId State.messages State.queryResults State.currentStatus
         State.isProcessing State.graphSuggestions];
    rewrite Hu; eexists; (split; [reflexivity|]);
    (split; [eexists; split; reflexivity | auto]).
Qed.

(** X2. Once the socket has announced a non-empty user id, a non-blank text
    sent on the open socket is posted with that id, together with the text as
    typed. *)
Theorem send_after_connection
    (newId : string) (newIds : nat -> string) (m : WebSocketMessage.t)
    (s : State.t) (u text : string) :
  WebSocketMessage.type m = "connection_established" ->
  WebSocketMessage.user_id m = Some u ->
  JsString.truthy u = true ->
  JsString.truthy (JsString.trim text) = true ->
  snd (sendMessage OPEN newIds text (onMessage newId m s))
  = Some {| Request.message := text; Request.userId := u |}.
Proof.
  intros Hty Hu Ht Htext. rewrite (onMessage_connection_established _ _ _ Hty).
  rewrite Hu. cbn [JsString.truthyOpt]. rewrite Ht.
  destruct (sendMessage_posted newIds text u (State.setUserId (Some u) s))
    as (entries & -> & _); auto.
Qed.

Lemma send_after_connection_witness :
  snd (sendMessage OPEN ids "top campaigns?"
         (onMessage "m0"
            (event "connection_established" None None None (Some "u42"))
            State.initial))
  = Some {| Request.message := "top campaigns?"; Request.userId := "u42" |}.
Proof.
  apply (send_after_connection "m0" ids
           (event "connection_established" None None None (Some "u42"))
           State.initial "u42" "top campaigns?"); reflexivity.
Defined.

(** X3. After the socket closed or failed the user id is gone: a send, even
    on a socket reported open again, posts nothing, adds one system entry and
    leaves the processing flag false, until a new id is announced. *)
Theorem send_after_disconnect
    (readyState : ReadyState) (newIds : nat -> string) (text : string)
    (s : State.t) :
  (exists e,
     ChatMessage.role e = system
     /\ sendMessage readyState newIds text (onClose s)
        = (State.setMessages (fun prev => prev ++ [e]) (onClose s), None))
  /\ (exists e,
       ChatMessage.role e = system
       /\ sendMessage readyState newIds text (onError s)
          = (State.setMessages (fun prev => prev ++ [e]) (onError s), None))
  /\ State.isProcessing (onClose s) = false
  /\ State.isProcessing (onError s) = false.
Proof.
  repeat split; try reflexivity.
  - unfold sendMessage. destruct (isOpen readyState); cbn [negb];
      eexists; (split; [|reflexivity]); reflexivity.
  - unfold sendMessage. destruct (isOpen readyState); cbn [negb];
      eexists; (split; [|reflexivity]); reflexivity.
Qed.

(** X4. A status message whose step ends in [workflow_end] ends the turn and
    clears the status line; it leaves no milestone, also when its status is
    [completed] and its step names a stage that otherwise leaves one. *)
Theorem status_workflow_end
    (newId : string) (m : WebSocketMessage.t) (s : State.t) :
  WebSocketMessage.type m = "status" ->
  stepEndsWith (WebSocketMessage.step m) "workflow_end" = true ->
  onMessage newId m s
  = {| State.userId := State.userId s;
       State.messages := State.messages s;
       State.queryResults := State.queryResults s;
       State.currentStatus := None;
       State.isProcessing := false;
       State.graphSuggestions := State.graphSuggestions s |}.
Proof.
  intros Hty Hend. rewrite (onMessage_status _ _ _ Hty). cbv zeta.
  rewrite Hend. reflexivity.
Qed.

Lemma status_workflow_end_witness :
  onMessage "m0"
    (event "status" (Some "execute_queries_workflow_end") (Some "completed") None None)
    awaiting
  = {| State.userId := State.userId awaiting;
       State.messages := State.messages awaiting;
       State.queryResults := State.queryResults awaiting;
       State.currentStatus := None;
       State.isProcessing := false;
       State.graphSuggestions := State.graphSuggestions awaiting |}.
Proof.
  apply (status_workflow_end "m0"
           (event "status" (Some "execute_queries_workflow_end") (Some "completed")
              None None) awaiting); reflexivity.
Defined.

(** X5. A status message whose step does not end in [workflow_end] never
    touches the processing flag, the results or the suggestions; it stores the
    status line, and it appends one milestone entry, tagged with the step,
    exactly when the status is [completed] and the step contains [generate],
    [execute] or [classification]. *)
Theorem status_milestone
    (newId : string) (m : WebSocketMessage.t) (s : State.t) :
  WebSocketMessage.type m = "status" ->
  stepEndsWith (WebSocketMessage.step m) "workflow_end" = false ->
  let s' := onMessage newId m s in
  State.isProcessing s' = State.isProcessing s
  /\ State.queryResults s' = State.queryResults s
  /\ State.graphSuggestions s' = State.graphSuggestions s
  /\ State.currentStatus s' = Some (statusText m)
  /\ (WebSocketMessage.status m = Some "completed"
       /\ milestoneStep (WebSocketMessage.step m) = true ->
       exists e,
         State.messages s' = State.messages s ++ [e]
         /\ ChatMessage.id e = newId
         /\ ChatMessage.role e = milestone
         /\ ChatMessage.step e = WebSocketMessage.step m
         /\ ChatMessage.reasoning e = None)
  /\ (~ (WebSocketMessage.status m = Some "completed"
          /\ milestoneStep (WebSocketMessage.step m) = true) ->
       State.messages s' = State.messages s).
Proof.
  intros Hty Hend s'. subst s'. rewrite (onMessage_status _ _ _ Hty). cbv zeta.
  rewrite Hend.
  destruct (bool_decide_reflect (WebSocketMessage.status m = Some "completed"))
    as [Hc|Hc];
    destruct (milestoneStep (WebSocketMessage.step m)) eqn:Hm; cbn [andb];
    repeat split; try reflexivity; try tauto; try (intros []; congruence).
  intros _. eexists. repeat split; reflexivity.
Qed.

Lemma status_milestone_witness :
  let m := event "status" (Some "execute_queries") (Some "completed") None None in
  State.isProcessing (onMessage "m0" m awaiting) = true
  /\ exists e,
       State.messages (onMessage "m0" m awaiting) = State.messages awaiting ++ [e]
       /\ ChatMessage.role e = milestone
       /\ ChatMessage.step e = Some "execute_queries".
Proof.
  intros m.
  destruct (status_milestone "m0" m awaiting eq_refl eq_refl)
    as (Hp & _ & _ & _ & Hyes & _).
  split; [exact Hp|].
  destruct (Hyes (conj eq_refl eq_refl)) as (e & He & _ & Hr & Hs & _).
  exists e. auto.
Defined.

(** X6. A successful send starts a turn: both lists are emptied, the status
    line reads [Thinking...], the processing flag is raised, the transcript
    gains one or two entries of which the last is the user's, and the request
    carries the text as typed with the user id. *)
Theorem send_starts_turn
    (newIds : nat -> string) (text u : string) (s : State.t) :
  State.userId s = Some u ->
  JsString.truthy u = true ->
  JsString.truthy (JsString.trim text) = true ->
  exists entries,
    sendMessage OPEN newIds text s
    = ({| State.userId := Some u;
          State.messages := State.messages s ++ entries;
          State.queryResults := [];
          State.currentStatus := Some "Thinking...";
          State.isProcessing := true;
          State.graphSuggestions := [] |},
       Some {| Request.message := text; Request.userId := u |})
    /\ (exists e, last entries = Some e /\ ChatMessage.role e = user)
    /\ (length entries = 1 \/ length entries = 2)%nat.
Proof. apply sendMessage_posted. Qed.

Lemma send_starts_turn_witness :
  exists entries,
    sendMessage OPEN ids "top campaigns?" withResults
    = ({| State.userId := Some "u1";
          State.messages := State.messages withResults ++ entries;
          State.queryResults := [];
          State.currentStatus := Some "Thinking...";
          State.isProcessing := true;
          State.graphSuggestions := [] |},
       Some {| Request.message := "top campaigns?"; Request.userId := "u1" |})
    /\ (exists e, last entries = Some e /\ ChatMessage.role e = user)
    /\ (length entries = 1 \/ length entries = 2)%nat.
Proof.
  apply (send_starts_turn ids "top campaigns?" "u1" withResults); reflexivity.
Defined.

(** X7. An input that lacks the context-start marker or the query-start
    marker is shown as typed: the one entry appended holds the text verbatim,
    surrounding white space included. *)
Theorem plain_input_verbatim
    (newIds : nat -> string) (text u : string) (s : State.t) :
  State.userId s = Some u ->
  JsString.truthy u = true ->
  JsString.truthy (JsString.trim text) = true ->
  JsString.includes text displayContextStartMarker = false
  \/ JsString.includes text queryStartMarker = false ->
  State.messages (fst (sendMessage OPEN newIds text s))
  = State.messages s ++ [userMessage (newIds 0%nat) text].
Proof.
  intros Hu Ht Htext Hm. unfold sendMessage. cbn [isOpen negb]. rewrite Hu.
  cbn [JsString.truthyOpt]. rewrite Ht, Htext. cbn [negb].
  unfold parseUserMessageWithContext.
  destruct Hm as [-> | ->]; rewrite ?andb_false_r; reflexivity.
Qed.

Lemma plain_input_verbatim_witness :
  State.messages (fst (sendMessage OPEN ids "  spend by week  " connected))
  = State.messages connected ++ [userMessage (ids 0%nat) "  spend by week  "].
Proof.
  apply (plain_input_verbatim ids "  spend by week  " "u1" connected);
    [reflexivity | reflexivity | reflexivity | left; reflexivity].
Defined.

Lemma validContent_Some (o : option string) (c : string) :
  validContent o = Some c <-> o = Some c /\ JsString.trim c <> "".
Proof.
  unfold validContent. destruct o as [d|]; [|split; [done|intros [? _]; done]].
  destruct (String.eqb_spec (JsString.trim d) ""); split.
  - done.
  - intros [[= ->] ?]. done.
  - intros [= ->]. done.
  - intros [[= ->] _]. done.
Qed.

Lemma validContent_None (o : option string) :
  validContent o = None <-> o = None \/ exists c, o = Some c /\ JsString.trim c = "".
Proof.
  unfold validContent. destruct o as [d|]; [|split; auto].
  destruct (String.eqb_spec (JsString.trim d) ""); split; try done.
  - intros _. right. eauto.
  - intros [?|(c & [= ->] & ?)]; done.
Qed.

(** X8. A [classifier_answer] always ends the turn. It adds one assistant
    entry holding the content as received when that content is not blank, and
    no entry otherwise; the results and the suggestions stay. *)
Theorem classifier_answer_ends_turn
    (newId : string) (m : WebSocketMessage.t) (s : State.t) :
  WebSocketMessage.type m = "classifier_answer" ->
  let s' := onMessage newId m s in
  State.isProcessing s' = false
  /\ State.currentStatus s' = None
  /\ State.queryResults s' = State.queryResults s
  /\ State.graphSuggestions s' = State.graphSuggestions s
  /\ (forall c, WebSocketMessage.content m = Some c -> JsString.trim c <> "" ->
        State.messages s' = State.messages s ++ [assistantEntry newId c])
  /\ (WebSocketMessage.content m = None
       \/ (exists c, WebSocketMessage.content m = Some c /\ JsString.trim c = "") ->
       State.messages s' = State.messages s).
Proof.
  intros Hty s'. subst s'. rewrite (onMessage_classifier_answer _ _ _ Hty).
  destruct (validContent (WebSocketMessage.content m)) as [c|] eqn:Hv.
  - apply validContent_Some in Hv as [Hc Hne].
    repeat split; try reflexivity.
    + intros c' Hc' _. rewrite Hc in Hc'. injection Hc' as <-. reflexivity.
    + intros [Hn|(c' & Hc' & Hb)]; congruence.
  - apply validContent_None in Hv.
    repeat split; try reflexivity.
    intros c Hc Hne. destruct Hv as [Hn|(c' & Hc' & Hb)]; congruence.
Qed.

Lemma classifier_answer_ends_turn_witness :
  let m := event "classifier_answer" None None (Some "  ") None in
  State.isProcessing (onMessage "m0" m awaiting) = false
  /\ State.messages (onMessage "m0" m awaiting) = State.messages awaiting.
Proof.
  intros m.
  destruct (classifier_answer_ends_turn "m0" m awaiting eq_refl)
    as (Hp & _ & _ & _ & _ & Hblank).
  split; [exact Hp|]. apply Hblank. right. exists "  ". split; reflexivity.
Defined.

(** X9. A [classifier_info] never ends the turn: the processing flag, the
    results and the suggestions stay. With a non-blank content it adds one
    assistant entry and sets the status line; with a blank or missing content
    it changes nothing at all. *)
Theorem classifier_info_keeps_turn
    (newId : string) (m : WebSocketMessage.t) (s : State.t) :
  WebSocketMessage.type m = "classifier_info" ->
  let s' := onMessage newId m s in
  State.isProcessing s' = State.isProcessing s
  /\ State.queryResults s' = State.queryResults s
  /\ State.graphSuggestions s' = State.graphSuggestions s
  /\ (forall c, WebSocketMessage.content m = Some c -> JsString.trim c <> "" ->
        State.messages s' = State.messages s ++ [assistantEntry newId c]
        /\ State.currentStatus s' = Some "Planning workflow...")
  /\ (WebSocketMessage.content m = None
       \/ (exists c, WebSocketMessage.content m = Some c /\ JsString.trim c = "") ->
       s' = s).
Proof.
  intros Hty s'. subst s'. rewrite (onMessage_classifier_info _ _ _ Hty).
  destruct (validContent (WebSocketMessage.content m)) as [c|] eqn:Hv.
  - apply validContent_Some in Hv as [Hc Hne].
    repeat split; try reflexivity.
    + rewrite Hc in H. injection H as <-. reflexivity.
    + intros [Hn|(c' & Hc' & Hb)]; congruence.
  - apply validContent_None in Hv.
    repeat split; try reflexivity;
      destruct Hv as [Hn|(c' & Hc' & Hb)]; congruence.
Qed.

Lemma classifier_info_keeps_turn_witness :
  let m := event "classifier_info" None None (Some "Looking at spend.") None in
  State.isProcessing (onMessage "m0" m awaiting) = true
  /\ State.messages (onMessage "m0" m awaiting)
     = State.messages awaiting ++ [assistantEntry "m0" "Looking at spend."].
Proof.
  intros m.
  destruct (classifier_info_keeps_turn "m0" m awaiting eq_refl)
    as (Hp & _ & _ & Hyes & _).
  split; [exact Hp|]. apply (Hyes "Looking at spend."); [reflexivity|discriminate].
Defined.

(** X10. An [error] message always ends the turn and adds exactly one system
    entry, whose text starts with the step in parentheses, or with
    [Unknown Step] when the step is missing or empty; the results and the
    suggestions stay. A missing [message] field is printed as the word
    [undefined]. *)
Theorem error_ends_turn
    (newId : string) (m : WebSocketMessage.t) (s : State.t) :
  WebSocketMessage.type m = "error" ->
  let s' := onMessage newId m s in
  exists e,
    State.messages s' = State.messages s ++ [e]
    /\ ChatMessage.role e = system
    /\ String.prefix
         ("**Error (" +:+ JsString.orElse (WebSocketMessage.step m) "Unknown Step"
            +:+ "):** ")
         (ChatMessage.content e) = true
    /\ (WebSocketMessage.message m = None ->
        JsString.truthyOpt (WebSocketMessage.details m) = false ->
        ChatMessage.content e
        = "**Error (" +:+ JsString.orElse (WebSocketMessage.step m) "Unknown Step"
            +:+ "):** undefined")
    /\ State.isProcessing s' = false
    /\ State.currentStatus s' = None
    /\ State.queryResults s' = State.queryResults s
    /\ State.graphSuggestions s' = State.graphSuggestions s.
Proof.
  intros Hty s'. subst s'. unfold onMessage. rewrite Hty. cbv zeta.
  change (String.eqb "error" "connection_established") with false.
  change (String.eqb "error" "status") with false.
  change (String.eqb "error" "classifier_info") with false.
  change (String.eqb "error" "classifier_answer") with false.
  change (String.eqb "error" "reasoning_summary") with false.
  change (String.eqb "error" "final_insight") with false.
  change (String.eqb "error" "final_recommendation") with false.
  change (String.eqb "error" "query_result") with false.
  change (String.eqb "error" "routing_decision") with false.
  change (String.eqb "error" "error") with true. cbv iota.
  eexists. split; [reflexivity|]. split; [reflexivity|].
  cbn [ChatMessage.content default PartialChatMessage.content PartialChatMessage.empty].
  split; [|split; [|repeat split]].
  - set (step := JsString.orElse _ _).
    rewrite <- (SendFacts.app_assoc step "):** ").
    rewrite <- (SendFacts.app_assoc "**Error (" (step +:+ "):** ")).
    apply JsStringFacts.prefix_app.
  - intros -> ->. reflexivity.
Qed.

Lemma error_ends_turn_witness :
  exists e,
    State.messages (onMessage "m0" (bare "error") awaiting)
    = State.messages awaiting ++ [e]
    /\ ChatMessage.content e = "**Error (Unknown Step):** undefined"
    /\ State.isProcessing (onMessage "m0" (bare "error") awaiting) = false.
Proof.
  destruct (error_ends_turn "m0" (bare "error") awaiting eq_refl)
    as (e & Hm & _ & _ & Hc & Hp & _).
  exists e. split; [exact Hm|]. split; [|exact Hp].
  apply Hc; reflexivity.
Defined.

(** X11. A message whose type is none of the ten handled, and a
    [routing_decision], leave the whole state as it is. *)
Theorem ignored_messages
    (newId : string) (m : WebSocketMessage.t) (s : State.t) :
  WebSocketMessage.type m ∉ knownTypes
  \/ WebSocketMessage.type m = "routing_decision" ->
  onMessage newId m s = s.
Proof.
  intros [H|H]; [by apply onMessage_unknown | by apply onMessage_routing_decision].
Qed.

Lemma ignored_messages_witness :
  onMessage "m0" (bare "final_recommendations") withResults = withResults.
Proof.
  apply (ignored_messages "m0" (bare "final_recommendations") withResults).
  left. unfold knownTypes. intros H.
  repeat (apply elem_of_cons in H as [H|H]; [discriminate H|]).
  by apply elem_of_nil in H.
Defined.

(** X12. However the request settles, the results, the suggestions and the
    user id stay and the transcript gains at most one entry. A response that
    is not ok and a failed request add one system entry and end the turn. An
    ok response adds one assistant entry exactly when it carries a non-empty
    [response]; with [tool_called] it leaves the processing flag as it is,
    without it the turn ends. *)
Theorem fetch_settled (newId : string) (o : FetchOutcome) (s : State.t) :
  let s' := onFetchSettled newId o s in
  State.queryResults s' = State.queryResults s
  /\ State.graphSuggestions s' = State.graphSuggestions s
  /\ State.userId s' = State.userId s
  /\ match o with
     | NotOk _ _ _ | Threw _ =>
         (exists e, State.messages s' = State.messages s ++ [e]
                    /\ ChatMessage.role e = system)
         /\ State.isProcessing s' = false
         /\ State.currentStatus s' = None
     | Ok response tool_called =>
         State.messages s'
         = State.messages s
             ++ (if JsString.truthyOpt response
                 then [assistantEntry newId (JsString.interpolate response)]
                 else [])
         /\ State.isProcessing s'
            = (if tool_called then State.isProcessing s else false)
         /\ State.currentStatus s'
            = (if tool_called then Some "Agent processing workflow..." else None)
     end.
Proof.
  destruct o as [detail error statusText|response tool_called|errorMessage];
    cbv zeta; cbn [onFetchSettled].
  - repeat split. eexists. split; reflexivity.
  - destruct (JsString.truthyOpt response), tool_called;
      repeat split; cbn; rewrite ?app_nil_r; reflexivity.
  - repeat split. eexists. split; reflexivity.
Qed.

Lemma settled_flag newId o s :
  State.isProcessing (onFetchSettled newId o s) = State.isProcessing s
  \/ State.isProcessing (onFetchSettled newId o s) = false.
Proof.
  destruct o as [? ? ?|response []|?]; cbn [onFetchSettled]; cbv zeta;
    try destruct (JsString.truthyOpt response); auto.
Qed.

Lemma onMessage_isProcessing newId m s :
  State.isProcessing (onMessage newId m s) = State.isProcessing s
  \/ State.isProcessing (onMessage newId m s) = false.
Proof.
  by_case newId m s; cbv zeta; split_ifs; auto.
Qed.

(** X13. Only a send that goes through raises the processing flag: if the
    flag is up after an operation, it was up before, or the operation was a
    send on an open socket, with a user id present and a non-blank text. *)
Theorem processing_raised_by_send_only (op : Op) (s : State.t) :
  State.isProcessing (run op s) = true ->
  State.isProcessing s = true
  \/ exists newIds text,
       op = Send OPEN newIds text
       /\ JsString.truthyOpt (State.userId s) = true
       /\ JsString.truthy (JsString.trim text) = true.
Proof.
  destruct op as [newId m|readyState newIds text|newId o| | |]; cbn [run].
  - destruct (onMessage_isProcessing newId m s) as [-> | ->]; [auto|discriminate].
  - unfold sendMessage.
    destruct readyState; cbn [isOpen negb fst State.isProcessing State.setIsProcessing];
      try discriminate.
    destruct (JsString.truthyOpt (State.userId s)) eqn:Hu;
      cbn [negb fst State.isProcessing State.setIsProcessing]; [|discriminate].
    destruct (JsString.truthy (JsString.trim text)) eqn:Ht; cbn [negb fst]; [|auto].
    intros _. right. eauto.
  - destruct (settled_flag newId o s) as [-> | ->]; [auto|discriminate].
  - discriminate.
  - discriminate.
  - discriminate.
Qed.

Lemma processing_raised_by_send_only_witness :
  State.isProcessing connected = true
  \/ exists newIds text,
       Send OPEN ids "top campaigns?" = Send OPEN newIds text
       /\ JsString.truthyOpt (State.userId connected) = true
       /\ JsString.truthy (JsString.trim text) = true.
Proof.
  apply (processing_raised_by_send_only (Send OPEN ids "top campaigns?") connected).
  reflexivity.
Defined.
End HookProps.

(** ** What the state always satisfies *)
Module HookInvariants.
Import useChat HookFacts HookProps Samples.

Lemma onMessage_userId newId m s :
  State.userId (onMessage newId m s) = State.userId s
  \/ (WebSocketMessage.type m = "connection_established"
      /\ JsString.truthyOpt (WebSocketMessage.user_id m) = true
      /\ State.userId (onMessage newId m s) = WebSocketMessage.user_id m).
Proof.
  by_case newId m s; cbv zeta; split_ifs; auto.
Qed.

Lemma run_userId (op : Op) (s : State.t) :
  State.userId (run op s) = State.userId s
  \/ State.userId (run op s) = None
  \/ JsString.truthyOpt (State.userId (run op s)) = true.
Proof.
  destruct op as [newId m|readyState newIds text|newId o| | |]; cbn [run]; auto.
  - destruct (onMessage_userId newId m s) as [->|(_ & Ht & ->)]; auto.
  - left. unfold sendMessage. split_ifs;
      try destruct (parseUserMessageWithContext _ _) as [c [x|]]; reflexivity.
  - left. destruct o as [? ? ?|response []|?]; cbn [onFetchSettled]; cbv zeta;
      try destruct (JsString.truthyOpt response); reflexivity.
Qed.

(** X14. The user id held by the hook is never the empty string: from the
    initial state, after any operations, it is absent or non-empty. So the
    request of a send never carries an empty id. *)
Theorem userId_absent_or_nonempty (ops : list Op) :
  State.userId (runAll ops State.initial) = None
  \/ JsString.truthyOpt (State.userId (runAll ops State.initial)) = true.
Proof.
  assert (H : forall s,
             State.userId s = None \/ JsString.truthyOpt (State.userId s) = true ->
             State.userId (runAll ops s) = None
             \/ JsString.truthyOpt (State.userId (runAll ops s)) = true).
  { induction ops as [|op ops IH]; intros s Hs; [exact Hs|].
    cbn [runAll foldl]. apply IH.
    destruct (run_userId op s) as [-> | [-> | ->]]; auto. }
  apply H. left. reflexivity.
Qed.

Lemma mapSuggestion_stored (bs : GraphSuggestion) : stored (mapSuggestion bs).
Proof.
  unfold stored, mapSuggestion. cbv zeta.
  set (o := Js.or _ _).
  assert (Ho : Js.truthy o = true).
  { subst o. unfold Js.or. destruct (Js.truthy (Js.get _ _)) eqn:E; [exact E|done]. }
  destruct (Js.truthy (optChain _ "x")), (Js.truthy (optChain _ "y")); split;
    unfold Js.get;
    rewrite ?lookup_insert_ne by done;
    rewrite ?lookup_insert_eq, ?lookup_delete_eq; done.
Qed.

Lemma map_mapSuggestion_stored (l : list GraphSuggestion) :
  Forall stored (map mapSuggestion l).
Proof.
  induction l as [|b l IH]; constructor; [apply mapSuggestion_stored | exact IH].
Qed.

Lemma onMessage_stored newId m s :
  Forall stored (State.graphSuggestions s) ->
  Forall stored (State.graphSuggestions (onMessage newId m s)).
Proof.
  intros Hs.
  by_case newId m s; cbv zeta; split_ifs;
    cbn [State.graphSuggestions State.setUserId State.setCurrentStatus
         State.setIsProcessing State.setMessages State.setQueryResults
         addMessageToChat];
    first [exact Hs | apply map_mapSuggestion_stored].
Qed.

Lemma run_stored (op : Op) (s : State.t) :
  Forall stored (State.graphSuggestions s) ->
  Forall stored (State.graphSuggestions (run op s)).
Proof.
  intros Hs. destruct op as [newId m|readyState newIds text|newId o| | |];
    cbn [run]; try exact Hs.
  - by apply onMessage_stored.
  - unfold sendMessage. split_ifs;
      try destruct (parseUserMessageWithContext _ _) as [c [x|]];
      cbn; try exact Hs; constructor.
  - destruct o as [? ? ?|response []|?]; cbn [onFetchSettled]; cbv zeta;
      try destruct (JsString.truthyOpt response); exact Hs.
Qed.

Lemma runAll_stored (ops : list Op) (s : State.t) :
  Forall stored (State.graphSuggestions s) ->
  Forall stored (State.graphSuggestions (runAll ops s)).
Proof.
  revert s. induction ops as [|op ops IH]; intros s Hs; [exact Hs|].
  cbn [runAll foldl]. apply IH. by apply run_stored.
Qed.

(** X15. Every suggestion the hook ever holds has lost its [columns] field
    and has a truthy [objective]: from the initial state, after any
    operations. *)
Theorem suggestions_always_mapped (ops : list Op) :
  Forall stored (State.graphSuggestions (runAll ops State.initial)).
Proof. apply runAll_stored. constructor. Qed.





End HookInvariants.

(** ** The explorer: data source and pagers *)
Module ExplorerProps.
Import useChat DataExplorer Samples.

Lemma findOrFirst_Found (p : QueryResult.t -> bool) (l : list QueryResult.t)
    (qr : QueryResult.t) :
  findOrFirst p l = Found qr -> qr ∈ l.
Proof.
  unfold findOrFirst. destruct (List.find p l) as [x|] eqn:E.
  - intros [= <-]. apply list_elem_of_In. by apply (List.find_some p l).
  - destruct l as [|x l]; [done|]. intros [= <-]. apply elem_of_cons. by left.
Qed.

Lemma findOrFirst_Missing (p : QueryResult.t -> bool) (l : list QueryResult.t) :
  findOrFirst p l = Missing <-> l = [].
Proof.
  unfold findOrFirst. split.
  - destruct (List.find p l); [done|]. by destruct l.
  - intros ->. reflexivity.
Qed.

Lemma findOrFirst_typed (p : QueryResult.t -> bool) (l : list QueryResult.t) :
  findOrFirst p l <> Untyped.
Proof. unfold findOrFirst. destruct (List.find p l); [done|]. by destruct l. Qed.

Lemma findOrFirst_no_match (p : QueryResult.t -> bool) (l : list QueryResult.t) :
  (forall qr, qr ∈ l -> p qr = false) ->
  findOrFirst p l = match l with [] => Missing | qr :: _ => Found qr end.
Proof.
  intros H. unfold findOrFirst. destruct (List.find p l) as [x|] eqn:E; [|done].
  apply List.find_some in E as [Hin Hp]. apply list_elem_of_In in Hin.
  rewrite (H x Hin) in Hp. done.
Qed.

Lemma dataSource_shape (g : GraphSuggestion) (l : list QueryResult.t) :
  dataSourceForCurrentGraph (Some g) l = Untyped
  \/ exists p, dataSourceForCurrentGraph (Some g) l = findOrFirst p l.
Proof.
  unfold dataSourceForCurrentGraph.
  destruct (negb (Js.truthy (objectiveToMatch g))).
  - destruct (Js.get g "title"); eauto.
  - destruct (objectiveToMatch g); eauto.
Qed.

(** X17. The table chosen for a graph suggestion is always one of the
    results at hand: with a suggestion and at least one result a table is
    chosen whatever the suggestion says (the first result when nothing
    matches), and none is chosen only without a suggestion or without
    results. *)
Theorem data_source_is_a_result
    (cur : option GraphSuggestion) (queryResults : list QueryResult.t) :
  (forall qr, dataSourceForCurrentGraph cur queryResults = Found qr ->
              qr ∈ queryResults)
  /\ (dataSourceForCurrentGraph cur queryResults = Missing <->
      cur = None \/ (queryResults = []
                     /\ dataSourceForCurrentGraph cur queryResults <> Untyped)).
Proof.
  destruct cur as [g|]; [|split; [done|split; auto]].
  destruct (dataSource_shape g queryResults) as [E|[p E]]; rewrite E.
  - split; [done|]. split; [done|]. intros [?|[_ ?]]; done.
  - split; [apply findOrFirst_Found|]. rewrite findOrFirst_Missing. split.
    + intros ->. right. split; [done|apply findOrFirst_typed].
    + intros [?|[? _]]; done.
Qed.

Lemma data_source_is_a_result_witness :
  dataSourceForCurrentGraph (Some (mapSuggestion nestedBar)) [] = Missing.
Proof.
  apply (data_source_is_a_result (Some (mapSuggestion nestedBar)) []).
  right. split; [reflexivity | discriminate].
Defined.

Lemma mapSuggestion_type (bs : GraphSuggestion) :
  Js.get (mapSuggestion bs) "type" = Js.get bs "type".
Proof.
  unfold mapSuggestion. cbv zeta.
  destruct (Js.truthy (optChain _ "x")), (Js.truthy (optChain _ "y"));
    unfold Js.get; rewrite !lookup_insert_ne by done;
    by rewrite lookup_delete_ne.
Qed.

Lemma mapSuggestion_objective (bs : GraphSuggestion) :
  Js.get (mapSuggestion bs) "objective"
  = Js.or (Js.get bs "objective") (JStr "Unknown Objective").
Proof.
  unfold mapSuggestion. cbv zeta.
  destruct (Js.truthy (optChain _ "x")), (Js.truthy (optChain _ "y"));
    unfold Js.get at 1; rewrite ?lookup_insert_ne by done;
    rewrite lookup_insert_eq; cbn [default];
    unfold Js.get; by rewrite lookup_delete_ne.
Qed.

(** X18. For a suggestion that came through the hook and is not an image,
    the objective to match is never missing, so the loose match on the title
    is never tried. When the backend sent no objective, the suggestion is
    paired with the first result, unless a result's objective happens to
    contain the default label [Unknown Objective]. *)
Theorem hook_suggestion_source
    (bs : GraphSuggestion) (queryResults : list QueryResult.t) :
  Js.isStr (Js.get bs "type") "image" = false ->
  Js.truthy (objectiveToMatch (mapSuggestion bs)) = true
  /\ (Js.truthy (Js.get bs "objective") = false ->
      (forall qr, qr ∈ queryResults ->
         JsString.includes (QueryResult.objective qr) "Unknown Objective" = false) ->
      dataSourceForCurrentGraph (Some (mapSuggestion bs)) queryResults
      = match queryResults with
        | [] => Missing
        | qr :: _ => Found qr
        end).
Proof.
  intros Hty.
  assert (Ho : objectiveToMatch (mapSuggestion bs)
               = Js.or (Js.or (Js.get bs "objective") (JStr "Unknown Objective"))
                       (Js.get (mapSuggestion bs) "data_source_objective")).
  { unfold objectiveToMatch. rewrite mapSuggestion_type, Hty.
    cbn [andb negb]. by rewrite mapSuggestion_objective. }
  split.
  - rewrite Ho. unfold Js.or.
    destruct (Js.truthy (Js.get bs "objective")) eqn:E; [by rewrite E|done].
  - intros Hno Hall. unfold dataSourceForCurrentGraph. rewrite Ho.
    unfold Js.or. rewrite Hno. cbn.
    apply findOrFirst_no_match. intros qr Hin. unfold objectiveMatches.
    rewrite (Hall qr Hin). apply andb_false_r.
Qed.

Lemma hook_suggestion_source_witness :
  dataSourceForCurrentGraph
    (Some (mapSuggestion {[ "type" := JStr "bar"; "title" := JStr "Spend" ]}))
    [earlier]
  = Found earlier.
Proof.
  apply (hook_suggestion_source
           {[ "type" := JStr "bar"; "title" := JStr "Spend" ]} [earlier]).
  - reflexivity.
  - reflexivity.
  - intros qr [->|H]%elem_of_cons; [reflexivity | by apply elem_of_nil in H].
Defined.

(** X19. Once the clamping effect has run on a non-negative index, the index
    selects an element whenever there is one, and it keeps doing so through
    any use of the two pager handlers. Before the effect runs, an index at or
    past the end of a list that became shorter selects nothing. *)
Theorem pager_selects_an_element {A : Type} (xs : list A) (i : Z) :
  (0 <= i)%Z ->
  let total := length xs in
  inRange total (clampIndex total i)
  /\ (forall j, inRange total j ->
        inRange total (handleNext total j) /\ inRange total (handlePrev j)
        /\ clampIndex total j = j
        /\ (xs <> [] -> is_Some (selected xs j)))
  /\ ((Z.of_nat total <= i)%Z -> selected xs i = None).
Proof.
  intros Hi total. unfold inRange, clampIndex, handleNext, handlePrev.
  repeat split.
  - destruct (Z.eqb_spec (Z.of_nat total) 0); [lia|].
    destruct (Z.leb_spec (Z.of_nat total) i); lia.
  - destruct (Z.eqb_spec (Z.of_nat total) 0); [lia|].
    destruct (Z.leb_spec (Z.of_nat total) i); lia.
  - destruct (Z.ltb_spec 0 (Z.of_nat total)); lia.
  - destruct (Z.ltb_spec 0 (Z.of_nat total)); lia.
  - lia.
  - lia.
  - destruct H as [H0 H1].
    destruct (Z.eqb_spec (Z.of_nat total) 0); [lia|].
    destruct (Z.leb_spec (Z.of_nat total) j); lia.
  - intros Hne. destruct H as [H0 H1]. unfold selected, at_index.
    assert (0 < length xs)%nat by (destruct xs; [done|simpl; lia]).
    destruct (Z.ltb_spec 0 (Z.of_nat (length xs))); [|lia].
    destruct (Z.ltb_spec j 0); [lia|].
    apply lookup_lt_is_Some. subst total. lia.
  - intros Hge. unfold selected, at_index.
    destruct (Z.ltb_spec 0 (Z.of_nat (length xs))); [|done].
    destruct (Z.ltb_spec i 0); [done|].
    apply lookup_ge_None. subst total. lia.
Qed.

Lemma pager_selects_an_element_witness :
  inRange 1 (clampIndex 1 2)
  /\ selected [earlier] (clampIndex 1 2) = Some earlier
  /\ selected [earlier] 2 = None.
Proof.
  destruct (pager_selects_an_element [earlier] 2 ltac:(lia)) as (Hr & _ & Hn).
  split; [exact Hr|]. split; [reflexivity|]. apply Hn. simpl. lia.
Defined.

(** X20. The pager buttons of the card agree with the handlers of the
    explorer: for an index in range and no turn in progress, a button is
    disabled exactly when its handler would leave the index where it is. *)
Theorem buttons_match_handlers (total : nat) (i : Z) :
  (0 < total)%nat ->
  inRange total i ->
  (GraphViewer.prevDisabled i false = true <-> handlePrev i = i)
  /\ (GraphViewer.nextDisabled i total false = true <-> handleNext total i = i).
Proof.
  intros Ht [H0 H1]. unfold GraphViewer.prevDisabled, GraphViewer.nextDisabled,
    handlePrev, handleNext. rewrite !orb_false_r.
  destruct (Z.ltb_spec 0 (Z.of_nat total)); [|lia].
  split.
  - destruct (Z.leb_spec i 0); split; try done; lia.
  - destruct (Z.leb_spec (Z.of_nat total - 1) i); split; try done; lia.
Qed.

Lemma buttons_match_handlers_witness :
  (GraphViewer.prevDisabled 0 false = true <-> handlePrev 0 = 0%Z)
  /\ (GraphViewer.nextDisabled 0 3 false = true <-> handleNext 3 0 = 0%Z).
Proof.
  apply (buttons_match_handlers 3 0); [lia | unfold inRange; simpl; lia].
Defined.
End ExplorerProps.

(** ** The viewer: what the card shows *)
Module ViewerProps.
Import GraphViewer Samples.

(** X21. The card shows the plot exactly when there is a suggestion with a
    non-empty type other than [image] and [none], the plot parameters exist
    with at least one trace, and the matched result carries no error; the two
    flags play no part. So the parameters handed to the plotting component
    are never missing. *)
Theorem plot_shown_iff
    (result : option QueryResult.t) (graphSuggestion : option Suggestion)
    (isProcessing isInitialStateProp : bool)
    (plotParams : option PlotParams.t) (p : PlotParams.t) :
  content result graphSuggestion isProcessing isInitialStateProp plotParams
  = PlotView p
  <-> plotParams = Some p
      /\ PlotParams.data p <> []
      /\ JsString.truthyOpt (result ≫= QueryResult.error) = false
      /\ exists g, graphSuggestion = Some g
                   /\ JsString.truthyOpt (typeOf g) = true
                   /\ typeIs g "none" = false
                   /\ typeIs g "image" = false.
Proof.
  unfold content. cbv zeta. split.
  - destruct graphSuggestion as [g|].
    + rewrite bool_decide_true by eauto.
      cbn [negb]. rewrite !andb_false_r. cbn [andb].
      destruct (JsString.truthyOpt (result ≫= QueryResult.error)); [done|].
      destruct (typeIs g "image") eqn:Hi; [done|].
      destruct (JsString.truthyOpt (typeOf g)) eqn:Ht; cbn [andb].
      * destruct (typeIs g "none") eqn:Hn; cbn [andb negb]; [done|].
        destruct plotParams as [q|]; cbn [hasPlotlyData].
        -- rewrite Hi. cbn [negb]. rewrite andb_true_r.
           destruct (PlotParams.data q) as [|tr l] eqn:Hd; cbn [length Nat.eqb negb].
           ++ destruct isProcessing; done.
           ++ intros [= ->]. rewrite Hd. repeat split; try done. eauto 10.
        -- destruct isProcessing; done.
      * destruct (typeIs g "none"), isProcessing; done.
    + destruct (isInitialStateProp && negb (bool_decide (is_Some None))
                && negb isProcessing); [done|].
      destruct (isProcessing && negb (bool_decide (is_Some None))); [done|].
      destruct (JsString.truthyOpt (result ≫= QueryResult.error)); [done|].
      destruct isProcessing; done.
  - intros (-> & Hd & He & g & -> & Ht & Hn & Hi).
    rewrite bool_decide_true by eauto.
    cbn [negb]. rewrite !andb_false_r. cbn [andb hasPlotlyData].
    rewrite He, Hi, Ht, Hn. cbn [andb negb].
    destruct (PlotParams.data p); [done|]. reflexivity.
Qed.

Lemma plot_shown_iff_witness :
  content (Some earlier) (Some chart) true false (Some onePlot) = PlotView onePlot.
Proof.
  apply (plot_shown_iff (Some earlier) (Some chart) true false (Some onePlot) onePlot).
  split; [reflexivity|]. split; [discriminate|]. split; [reflexivity|].
  exists chart. repeat split; reflexivity.
Defined.

(** X22. A result's error hides whatever suggestion there is, an image
    included: with a suggestion present and a non-empty error on the matched
    result, the card shows the error. *)
Theorem error_hides_graph
    (r : QueryResult.t) (g : Suggestion) (e : string)
    (isProcessing isInitialStateProp : bool)
    (plotParams : option PlotParams.t) :
  QueryResult.error r = Some e ->
  JsString.truthy e = true ->
  content (Some r) (Some g) isProcessing isInitialStateProp plotParams
  = ErrorBox e.
Proof.
  intros He Ht. unfold content. cbv zeta.
  rewrite bool_decide_true by eauto. cbn [negb]. rewrite !andb_false_r.
  cbn [andb mbind option_bind]. rewrite He. cbn [JsString.truthyOpt]. rewrite Ht.
  reflexivity.
Qed.

Lemma error_hides_graph_witness :
  content (Some failed) (Some chart) false false None = ErrorBox "timeout".
Proof. apply (error_hides_graph failed chart "timeout"); reflexivity. Defined.

(** X23. While a turn is in progress the card never shows one of its three
    "no graph" texts. The "unrecognized" text is shown only for a suggestion
    whose type is missing or empty, the "unavailable" text only for a
    suggestion with a type other than [none] and [image], and the "no graph
    data" text only without a suggestion. *)
Theorem fallback_texts
    (result : option QueryResult.t) (graphSuggestion : option Suggestion)
    (isProcessing isInitialStateProp : bool)
    (plotParams : option PlotParams.t) :
  let c := content result graphSuggestion isProcessing isInitialStateProp
             plotParams in
  (isProcessing = true -> c <> Unavailable /\ c <> Unrecognized /\ c <> NoGraphData)
  /\ (c = Unrecognized ->
      exists g, graphSuggestion = Some g /\ JsString.truthyOpt (typeOf g) = false)
  /\ (c = Unavailable ->
      exists g, graphSuggestion = Some g
                /\ JsString.truthyOpt (typeOf g) = true
                /\ typeIs g "none" = false /\ typeIs g "image" = false)
  /\ (c = NoGraphData -> graphSuggestion = None).
Proof.
  unfold content. cbv zeta.
  destruct graphSuggestion as [g|].
  - rewrite bool_decide_true by eauto. cbn [negb]. rewrite !andb_false_r.
    cbn [andb].
    destruct (JsString.truthyOpt (result ≫= QueryResult.error));
      [repeat split; done|].
    destruct (typeIs g "image") eqn:Hi; [repeat split; done|].
    destruct (JsString.truthyOpt (typeOf g)) eqn:Ht;
      destruct (typeIs g "none") eqn:Hn; cbn [andb negb].
    + repeat split; done.
    + destruct (hasPlotlyData plotParams (Some g)) eqn:Hh; cbn [negb andb].
      * destruct plotParams; [repeat split; done | discriminate Hh].
      * destruct isProcessing; cbn [negb]; repeat split; try done.
        intros _. eauto 10.
    + repeat split; done.
    + destruct isProcessing; repeat split; try done. intros _. eauto.
  - rewrite bool_decide_false by (intros [? ?]; done). cbn [negb].
    rewrite !andb_true_r.
    destruct isInitialStateProp, isProcessing; cbn [andb negb];
      repeat split; try done;
      destruct (JsString.truthyOpt (result ≫= QueryResult.error)); done.
Qed.

Lemma fallback_texts_witness :
  content None (Some chart) true false None <> Unavailable
  /\ content None (Some chart) true false None <> Unrecognized
  /\ content None (Some chart) true false None <> NoGraphData.
Proof.
  destruct (fallback_texts None (Some chart) true false None) as (H & _).
  apply H. reflexivity.
Defined.

End ViewerProps.
